(** * UART framing protocol of the ESP32 HID proxy tools

    A shallow embedding of [tools/test_uart_protocol.py] (the packet
    encoder) and [tools/uart_monitor.py] (the packet decoder and monitor
    loop), followed by the properties of the wire format.

    A Python [bytes] value is a list of integers in [0, 256); a Python [str]
    is a list of Unicode code points.  Code that can raise returns a
    [result]. *)

From Stdlib Require Import ZArith List String Ascii Bool Lia DecimalString.
From Stdlib Require Import Permutation.
Import ListNotations.
Local Open Scope Z_scope.

(** ** The pieces of the Python runtime the two tools rely on *)

Module Py.

Definition bytes := list Z.
Definition str := list Z.

Definition is_byteb (b : Z) : bool := (0 <=? b) && (b <? 256).
Definition is_byte (b : Z) : Prop := 0 <= b < 256.
Definition all_bytes (l : bytes) : Prop := Forall is_byte l.
Definition is_str (s : str) : Prop := Forall (fun c => 0 <= c <= 0x10FFFF) s.

Inductive exn : Type :=
| ValueError
| struct_error
| UnicodeEncodeError
| IndexError
| NameError (name : string).

Inductive result (A : Type) : Type :=
| Ok (a : A)
| Raise (e : exn).
Arguments Ok {A} a.
Arguments Raise {A} e.

Definition bind {A B} (c : result A) (k : A -> result B) : result B :=
  match c with
  | Ok a => k a
  | Raise e => Raise e
  end.

(** A string literal of the source, as code points. *)
Definition lit (s : string) : str :=
  map (fun a => Z.of_N (N_of_ascii a)) (list_ascii_of_string s).

(** [len(x)] *)
Definition len {A} (l : list A) : Z := Z.of_nat (List.length l).

(** [l[i:j]] for [0 <= i <= j] *)
Definition slice {A} (i j : nat) (l : list A) : list A :=
  firstn (j - i) (skipn i l).

(** [l[-1]]: raises IndexError on an empty sequence *)
Definition last_item (l : bytes) : result Z :=
  match rev l with
  | [] => Raise IndexError
  | x :: _ => Ok x
  end.

(** [sep.join(parts)] *)
Fixpoint join (sep : str) (parts : list str) : str :=
  match parts with
  | [] => []
  | [p] => p
  | p :: rest => p ++ sep ++ join sep rest
  end.

(** [bytearray.append(v)]: the value must be in range(256) *)
Definition bytearray_append (packet : bytes) (v : Z) : result bytes :=
  if is_byteb v then Ok (packet ++ [v]) else Raise ValueError.

(** [struct.pack('<H', n)]: two bytes, low byte first *)
Definition struct_pack_H (n : Z) : result bytes :=
  if (0 <=? n) && (n <=? 65535)
  then Ok [Z.land n 255; Z.land (Z.shiftr n 8) 255]
  else Raise struct_error.

(** [struct.unpack('<H', b)[0]]: needs exactly two bytes *)
Definition struct_unpack_H (b : bytes) : result Z :=
  match b with
  | [lo; hi] => Ok (Z.lor lo (Z.shiftl hi 8))
  | _ => Raise struct_error
  end.

(** [struct.unpack('b', bytes([v]))[0]]: the byte read as two's complement *)
Definition struct_unpack_b (v : Z) : Z :=
  if v <? 128 then v else v - 256.

(** Decimal digits of a non-negative integer, as [f"{n}"] prints them. *)
Definition dec (n : Z) : str :=
  lit (NilZero.string_of_uint (N.to_uint (Z.to_N n))).

(** [f"{x:+4d}"]: explicit sign, right-aligned in at least 4 columns *)
Definition fmt_plus4d (x : Z) : str :=
  let body := (if x <? 0 then lit "-" else lit "+") ++ dec (Z.abs x) in
  repeat 32 (4 - List.length body) ++ body.

Definition hex_digit (upper : bool) (d : Z) : Z :=
  if d <? 10 then 48 + d else (if upper then 55 else 87) + d.

Fixpoint hex_digits (p : positive) : list Z :=
  match p with
  | xH => [1]
  | xO xH => [2] | xI xH => [3]
  | xO (xO xH) => [4] | xI (xO xH) => [5] | xO (xI xH) => [6] | xI (xI xH) => [7]
  | xO (xO (xO xH)) => [8] | xI (xO (xO xH)) => [9]
  | xO (xI (xO xH)) => [10] | xI (xI (xO xH)) => [11]
  | xO (xO (xI xH)) => [12] | xI (xO (xI xH)) => [13]
  | xO (xI (xI xH)) => [14] | xI (xI (xI xH)) => [15]
  | xO (xO (xO (xO q))) => hex_digits q ++ [0]
  | xI (xO (xO (xO q))) => hex_digits q ++ [1]
  | xO (xI (xO (xO q))) => hex_digits q ++ [2]
  | xI (xI (xO (xO q))) => hex_digits q ++ [3]
  | xO (xO (xI (xO q))) => hex_digits q ++ [4]
  | xI (xO (xI (xO q))) => hex_digits q ++ [5]
  | xO (xI (xI (xO q))) => hex_digits q ++ [6]
  | xI (xI (xI (xO q))) => hex_digits q ++ [7]
  | xO (xO (xO (xI q))) => hex_digits q ++ [8]
  | xI (xO (xO (xI q))) => hex_digits q ++ [9]
  | xO (xI (xO (xI q))) => hex_digits q ++ [10]
  | xI (xI (xO (xI q))) => hex_digits q ++ [11]
  | xO (xO (xI (xI q))) => hex_digits q ++ [12]
  | xI (xO (xI (xI q))) => hex_digits q ++ [13]
  | xO (xI (xI (xI q))) => hex_digits q ++ [14]
  | xI (xI (xI (xI q))) => hex_digits q ++ [15]
  end.

(** [f"{k:02X}"] for [k >= 0]: upper-case hexadecimal, zero-padded to two
    columns *)
Definition fmt_02X (k : Z) : str :=
  let body :=
    match k with
    | Zpos p => map (hex_digit true) (hex_digits p)
    | _ => lit "0"
    end in
  repeat 48 (2 - List.length body) ++ body.

(** [b.hex()]: two lower-case hexadecimal digits per byte *)
Definition bytes_hex (b : bytes) : str :=
  flat_map (fun x => [hex_digit false (x / 16); hex_digit false (x mod 16)]) b.

(** *** The UTF-8 codec *)

(** One code point, as [str.encode('utf-8')] writes it; the surrogates
    U+D800..U+DFFF cannot be encoded. *)
Definition utf8_encode_char (c : Z) : result bytes :=
  if c <? 0x80 then Ok [c]
  else if c <? 0x800 then Ok [0xC0 + c / 64; 0x80 + c mod 64]
  else if (0xD800 <=? c) && (c <=? 0xDFFF) then Raise UnicodeEncodeError
  else if c <? 0x10000 then
    Ok [0xE0 + c / 4096; 0x80 + (c / 64) mod 64; 0x80 + c mod 64]
  else
    Ok [0xF0 + c / 262144; 0x80 + (c / 4096) mod 64;
        0x80 + (c / 64) mod 64; 0x80 + c mod 64].

Fixpoint str_encode_utf8 (s : str) : result bytes :=
  match s with
  | [] => Ok []
  | c :: rest =>
      bind (utf8_encode_char c) (fun b =>
      bind (str_encode_utf8 rest) (fun bs => Ok (b ++ bs)))
  end.

Definition between (lo x hi : Z) : bool := (lo <=? x) && (x <=? hi).

(** [bytes.decode('utf-8')] in strict mode: [None] stands for the
    UnicodeDecodeError. *)
Fixpoint bytes_decode_utf8 (b : bytes) : option str :=
  match b with
  | [] => Some []
  | b0 :: r0 =>
      if b0 <? 0x80 then option_map (cons b0) (bytes_decode_utf8 r0)
      else if between 0xC2 b0 0xDF then
        match r0 with
        | b1 :: r1 =>
            if between 0x80 b1 0xBF
            then option_map (cons ((b0 - 0xC0) * 64 + (b1 - 0x80)))
                            (bytes_decode_utf8 r1)
            else None
        | _ => None
        end
      else if between 0xE0 b0 0xEF then
        match r0 with
        | b1 :: b2 :: r2 =>
            if between (if b0 =? 0xE0 then 0xA0 else 0x80) b1
                       (if b0 =? 0xED then 0x9F else 0xBF)
               && between 0x80 b2 0xBF
            then option_map
                   (cons ((b0 - 0xE0) * 4096 + (b1 - 0x80) * 64 + (b2 - 0x80)))
                   (bytes_decode_utf8 r2)
            else None
        | _ => None
        end
      else if between 0xF0 b0 0xF4 then
        match r0 with
        | b1 :: b2 :: b3 :: r3 =>
            if between (if b0 =? 0xF0 then 0x90 else 0x80) b1
                       (if b0 =? 0xF4 then 0x8F else 0xBF)
               && between 0x80 b2 0xBF && between 0x80 b3 0xBF
            then option_map
                   (cons ((b0 - 0xF0) * 262144 + (b1 - 0x80) * 4096
                          + (b2 - 0x80) * 64 + (b3 - 0x80)))
                   (bytes_decode_utf8 r3)
            else None
        | _ => None
        end
      else None
  end.

(** [bytes(ints)]: every item must be in range(256) *)
Definition bytes_of_ints (ints : list Z) : result bytes :=
  if forallb is_byteb ints then Ok ints else Raise ValueError.

(** [str(parts)] for a list of strings that hold neither quotes nor
    backslashes nor control characters: each item in single quotes *)
Definition repr_str_list (parts : list str) : str :=
  lit "[" ++ join (lit ", ") (map (fun p => lit "'" ++ p ++ lit "'") parts)
    ++ lit "]".

End Py.

Import Py.

Notation "x <- c ;; k" := (bind c (fun x => k))
  (at level 61, c at next level, right associativity).

(** ** tools/test_uart_protocol.py: the encoder *)

Module TestUartProtocol.

Definition PKT_KEYBOARD_REPORT : Z := 0x01.
Definition PKT_MOUSE_REPORT : Z := 0x02.
Definition PKT_LED_UPDATE : Z := 0x03.
Definition PKT_STATUS : Z := 0x04.
Definition PKT_ACK : Z := 0x05.

Definition PACKET_START : Z := 0xAA.

(** The [payload] argument of [create_packet] is a [str] or a [bytes]. *)
Inductive payload_arg : Type :=
| PStr (s : str)
| PBytes (b : bytes).

(** The running XOR of [for byte in packet: checksum ^= byte]. *)
Definition xor_all (packet : bytes) : Z := fold_left Z.lxor packet 0.

Definition create_packet (pkt_type : Z) (payload : payload_arg) : result bytes :=
  payload <- match payload with
             | PStr s => str_encode_utf8 s
             | PBytes b => Ok b
             end ;;
  packet <- bytearray_append [] PACKET_START ;;
  packet <- bytearray_append packet pkt_type ;;
  length_le <- struct_pack_H (len payload) ;;
  let packet := packet ++ length_le in
  let packet := packet ++ payload in
  let checksum := xor_all packet in
  packet <- bytearray_append packet checksum ;;
  Ok packet.

(** The payloads the senders build. *)
Definition keyboard_payload (modifier : Z) (keys : list Z) : bytes :=
  [modifier; 0] ++ keys.

Definition mouse_payload (buttons x y : Z) : bytes :=
  [buttons; Z.land x 255; Z.land y 255].

(** *** The senders

    What the test tool has written to the port and printed so far.  A
    sender returns the port as it leaves it, also when it raises. *)
Record port : Type := Port {
  sent : bytes;
  shown : list str
}.

Definition ser_write (packet : bytes) (ser : port) : port :=
  {| sent := sent ser ++ packet; shown := shown ser |}.

Definition print (line : str) (ser : port) : port :=
  {| sent := sent ser; shown := shown ser ++ [line] |}.

Definition send_keyboard_report (ser : port) (modifier : Z) (keys : list Z)
  : result unit * port :=
  match (payload <- bytes_of_ints (keyboard_payload modifier keys) ;;
         create_packet PKT_KEYBOARD_REPORT (PBytes payload)) with
  | Raise e => (Raise e, ser)
  | Ok packet =>
      let ser := ser_write packet ser in
      (Ok tt,
       print (lit "Sent keyboard: mod=0x" ++ fmt_02X modifier ++ lit ", keys="
                ++ repr_str_list (map (fun k => lit "0x" ++ fmt_02X k) keys))
             ser)
  end.

Definition send_mouse_report (ser : port) (buttons x y : Z)
  : result unit * port :=
  match (payload <- bytes_of_ints (mouse_payload buttons x y) ;;
         create_packet PKT_MOUSE_REPORT (PBytes payload)) with
  | Raise e => (Raise e, ser)
  | Ok packet =>
      let ser := ser_write packet ser in
      (Ok tt,
       print (lit "Sent mouse: buttons=0x" ++ fmt_02X buttons ++ lit ", x="
                ++ fmt_plus4d x ++ lit ", y=" ++ fmt_plus4d y)
             ser)
  end.

Definition send_status (ser : port) (message : str) : result unit * port :=
  match create_packet PKT_STATUS (PStr message) with
  | Raise e => (Raise e, ser)
  | Ok packet =>
      let ser := ser_write packet ser in
      (Ok tt, print (lit "Sent status: " ++ message) ser)
  end.

(** Sequencing of statements that act on the port: an exception ends the
    sequence. *)
Definition and_then (first : result unit * port)
           (next : port -> result unit * port) : result unit * port :=
  match first with
  | (Ok _, ser) => next ser
  | (Raise e, ser) => (Raise e, ser)
  end.

(** [for i in range(n): body] *)
Fixpoint for_range (i : Z) (n : nat) (body : Z -> port -> result unit * port)
         (ser : port) : result unit * port :=
  match n with
  | O => (Ok tt, ser)
  | S n' => and_then (body i ser) (for_range (i + 1) n' body)
  end.

Definition released : list Z := [0; 0; 0; 0; 0; 0].

(** [main] from the point where the port is open: the pauses between the
    packets leave no trace on the port. *)
Definition main (ser : port) : result unit * port :=
  let ser := print ([10] ++ lit "Sending test packets..." ++ [10]) ser in
  and_then (send_status ser (lit "UART Protocol Test Started")) (fun ser =>
  let ser := print ([10] ++ lit "--- Simulating 'a' key press ---") ser in
  and_then (send_keyboard_report ser 0 [0x04; 0; 0; 0; 0; 0]) (fun ser =>
  and_then (send_keyboard_report ser 0 released) (fun ser =>
  let ser := print ([10] ++ lit "--- Simulating Shift+A ---") ser in
  and_then (send_keyboard_report ser 0x02 [0x04; 0; 0; 0; 0; 0]) (fun ser =>
  and_then (send_keyboard_report ser 0 released) (fun ser =>
  let ser := print ([10] ++ lit "--- Simulating mouse movement ---") ser in
  and_then (send_mouse_report ser 0 10 (-5)) (fun ser =>
  and_then (send_mouse_report ser 0x01 0 0) (fun ser =>
  and_then (send_mouse_report ser 0 0 0) (fun ser =>
  let ser :=
    print ([10] ++ lit "--- Simulating rapid typing (10 keys/sec for 3 seconds) ---")
          ser in
  and_then
    (for_range 0 30
       (fun i ser =>
          let key := 0x04 + i mod 26 in
          and_then (send_keyboard_report ser 0 [key; 0; 0; 0; 0; 0]) (fun ser =>
          send_keyboard_report ser 0 released))
       ser) (fun ser =>
  let ser := print ([10] ++ lit "--- Test complete ---") ser in
  send_status ser (lit "UART Protocol Test Complete")))))))))).

End TestUartProtocol.

(** ** tools/uart_monitor.py: the decoder *)

Module UartMonitor.

Definition PKT_KEYBOARD_REPORT : Z := 0x01.
Definition PKT_MOUSE_REPORT : Z := 0x02.
Definition PKT_LED_UPDATE : Z := 0x03.
Definition PKT_STATUS : Z := 0x04.
Definition PKT_ACK : Z := 0x05.

Definition PACKET_START : Z := 0xAA.

(** The integer constants bound at module level.  The other module-level
    names are the imports [sys], [serial], [struct] and the functions
    defined below. *)
Definition module_globals : list (string * Z) :=
  [ ("PKT_KEYBOARD_REPORT", PKT_KEYBOARD_REPORT);
    ("PKT_MOUSE_REPORT", PKT_MOUSE_REPORT);
    ("PKT_LED_UPDATE", PKT_LED_UPDATE);
    ("PKT_STATUS", PKT_STATUS);
    ("PKT_ACK", PKT_ACK);
    ("PACKET_START", PACKET_START) ]%string.

(** Reading a name that is neither a local nor bound at module level nor a
    builtin raises NameError. *)
Definition global (name : string) : result Z :=
  match find (fun kv => String.eqb (fst kv) name) module_globals with
  | Some kv => Ok (snd kv)
  | None => Raise (NameError name)
  end.

(** [if v & mask: names.append(name)] *)
Definition flag (v mask : Z) (name : string) : list str :=
  if negb (Z.land v mask =? 0) then [lit name] else [].

Definition nonempty {A} (l : list A) : bool :=
  match l with
  | [] => false
  | _ => true
  end.

Definition verify_checksum (packet_bytes : bytes) : result bool :=
  let calc_checksum := fold_left Z.lxor (removelast packet_bytes) 0 in
  recv_checksum <- last_item packet_bytes ;;
  Ok (calc_checksum =? recv_checksum).

Definition decode_keyboard_report (payload : bytes) : str :=
  if negb (len payload =? 8)
  then lit "Invalid keyboard report length: " ++ dec (len payload)
  else
    let modifier := nth 0 payload 0 in
    let keys := slice 2 8 payload in
    let mod_names :=
      flag modifier 0x01 "LCTRL" ++ flag modifier 0x02 "LSHIFT" ++
      flag modifier 0x04 "LALT" ++ flag modifier 0x08 "LGUI" ++
      flag modifier 0x10 "RCTRL" ++ flag modifier 0x20 "RSHIFT" ++
      flag modifier 0x40 "RALT" ++ flag modifier 0x80 "RGUI" in
    let mod_str :=
      if nonempty mod_names then join (lit "+") mod_names else lit "none" in
    let key_codes :=
      join (lit " ")
           (map (fun k => lit "0x" ++ fmt_02X k)
                (filter (fun k => negb (k =? 0)) keys)) in
    lit "KEYBOARD: mod=" ++ mod_str ++ lit ", keys=["
      ++ (if nonempty key_codes then key_codes else lit "none") ++ lit "]".

(** The locals of [decode_mouse_report] once the length test has passed. *)
Record mouse_locals : Type := MouseLocals {
  btn_names : list str;
  x : Z;
  y : Z
}.

Definition mouse_report_locals (payload : bytes) : mouse_locals :=
  let buttons := nth 0 payload 0 in
  {| x := struct_unpack_b (nth 1 payload 0);
     y := struct_unpack_b (nth 2 payload 0);
     btn_names :=
       flag buttons 0x01 "LEFT" ++ flag buttons 0x02 "RIGHT" ++
       flag buttons 0x04 "MIDDLE" |}.

Definition decode_mouse_report (payload : bytes) : str :=
  if len payload <? 3
  then lit "Invalid mouse report length: " ++ dec (len payload)
  else
    let m := mouse_report_locals payload in
    let btn_str :=
      if nonempty (btn_names m) then join (lit "+") (btn_names m)
      else lit "none" in
    lit "MOUSE: buttons=" ++ btn_str ++ lit ", x=" ++ fmt_plus4d (x m)
      ++ lit ", y=" ++ fmt_plus4d (y m).

(** The third test reads the name [pkt_STATUS]; the source has only
    [PKT_STATUS] and the parameter [pkt_type]. *)
Definition decode_packet (pkt_type : Z) (payload : bytes) : result str :=
  if pkt_type =? PKT_KEYBOARD_REPORT then Ok (decode_keyboard_report payload)
  else if pkt_type =? PKT_MOUSE_REPORT then Ok (decode_mouse_report payload)
  else
    pkt_STATUS <- global "pkt_STATUS" ;;
    if negb (pkt_STATUS =? 0) then
      match bytes_decode_utf8 payload with
      | Some text => Ok (lit "STATUS: " ++ text)
      | None => Ok (lit "STATUS: " ++ bytes_hex payload)
      end
    else if pkt_type =? PKT_ACK then Ok (lit "ACK")
    else Ok (lit "Unknown type 0x" ++ fmt_02X pkt_type ++ lit ": "
               ++ bytes_hex payload).

(** *** The monitor loop on a scripted serial transcript

    The port is the list of bytes still to arrive.  [ser.read(n)] returns
    the next [n] bytes, or all that is left when fewer remain (the read
    times out). *)

Definition ser_read (n : nat) (ser : bytes) : bytes * bytes :=
  (firstn n ser, skipn n ser).

(** The inner [while True]: read one byte at a time up to and including the
    first start byte.  On an exhausted transcript [ser.read(1)] returns
    [b''] on every timeout and the loop keeps polling: [None]. *)
Fixpoint seek_start (ser : bytes) : option bytes :=
  match ser with
  | [] => None
  | byte :: ser' =>
      if byte =? PACKET_START then Some ser' else seek_start ser'
  end.

(** What one pass through the outer loop found. *)
Inductive event : Type :=
| HeaderReadFailure
| BodyReadFailure (expected got : Z)
| ChecksumError
| Decoded (pkt_type : Z) (payload : bytes).

Inductive scan : Type :=
| Starved
| Framed (ev : event) (ser : bytes).

(** One pass through the outer loop, up to the checksum test. *)
Definition read_frame (ser : bytes) : result scan :=
  match seek_start ser with
  | None => Ok Starved
  | Some ser =>
      let '(header, ser) := ser_read 3 ser in
      if negb (len header =? 3) then Ok (Framed HeaderReadFailure ser)
      else
        let pkt_type := nth 0 header 0 in
        pkt_len <- struct_unpack_H (slice 1 3 header) ;;
        let '(data, ser) := ser_read (Z.to_nat (pkt_len + 1)) ser in
        if negb (len data =? pkt_len + 1)
        then Ok (Framed (BodyReadFailure (pkt_len + 1) (len data)) ser)
        else
          let payload := removelast data in
          checksum <- last_item data ;;
          let packet_bytes :=
            [PACKET_START; pkt_type] ++ slice 1 3 header ++ data in
          ok <- verify_checksum packet_bytes ;;
          if negb ok then Ok (Framed ChecksumError ser)
          else Ok (Framed (Decoded pkt_type payload) ser)
  end.

(** The line the loop prints for what it found. *)
Definition report (ev : event) : result str :=
  match ev with
  | HeaderReadFailure => Ok (lit "ERROR: Failed to read header")
  | BodyReadFailure expected got =>
      Ok (lit "ERROR: Failed to read payload (expected " ++ dec expected
            ++ lit ", got " ++ dec got ++ lit ")")
  | ChecksumError => Ok (lit "ERROR: Checksum mismatch")
  | Decoded pkt_type payload => decode_packet pkt_type payload
  end.

(** How a run on a finite transcript ends: still polling for a start byte,
    or left through an exception that [except KeyboardInterrupt] does not
    catch. *)
Inductive outcome : Type :=
| Polling
| Crashed (e : exn)
| OutOfFuel.

(** The outer [while True] of [main]; every pass consumes at least the
    start byte, so [fuel] bounds the number of passes. *)
Fixpoint main_loop (fuel : nat) (ser : bytes) : list (event * str) * outcome :=
  match fuel with
  | O => ([], OutOfFuel)
  | S fuel' =>
      match read_frame ser with
      | Raise e => ([], Crashed e)
      | Ok Starved => ([], Polling)
      | Ok (Framed ev ser') =>
          match report ev with
          | Raise e => ([], Crashed e)
          | Ok line =>
              let '(printed, o) := main_loop fuel' ser' in
              ((ev, line) :: printed, o)
          end
      end
  end.

Definition main (ser : bytes) : list (event * str) * outcome :=
  main_loop (S (List.length ser)) ser.

Definition events (run : list (event * str) * outcome) : list event :=
  map fst (fst run).

End UartMonitor.

Import TestUartProtocol UartMonitor.

(** ** Vocabulary of the properties *)

(** The name the protocol description gives to the failure of
    [struct.pack('<H', len(payload))]. *)
Definition PayloadTooLarge : exn := struct_error.

(** Line noise: bytes among which the start marker does not occur. *)
Definition quiet (noise : bytes) : Prop :=
  Forall (fun b => b <> UartMonitor.PACKET_START) noise.

(** A transmission fault: bit [k] of one byte is inverted. *)
Definition flip_bit (k : Z) (b : Z) : Z := Z.lxor b (Z.shiftl 1 k).

Fixpoint flip_bit_at (i : nat) (k : Z) (wire : bytes) : bytes :=
  match wire, i with
  | [], _ => []
  | b :: rest, O => flip_bit k b :: rest
  | b :: rest, S i' => b :: flip_bit_at i' k rest
  end.

(** One report on its way: the line noise before it, its type and payload,
    the packet the encoder made of them and the line the monitor's dispatch
    step returns for them. *)
Record delivery : Type := Delivery {
  d_noise : bytes;
  d_type : Z;
  d_payload : bytes;
  d_packet : bytes;
  d_line : str
}.

Definition delivered (d : delivery) : Prop :=
  quiet (d_noise d) /\ is_byte (d_type d) /\ all_bytes (d_payload d) /\
  create_packet (d_type d) (PBytes (d_payload d)) = Ok (d_packet d) /\
  decode_packet (d_type d) (d_payload d) = Ok (d_line d).

(** The bounds the monitor's events keep on a transcript of bytes. *)
Definition event_ok (ev : event) : Prop :=
  match ev with
  | HeaderReadFailure => True
  | BodyReadFailure expected got => 1 <= expected <= 65536 /\ 0 <= got < expected
  | ChecksumError => True
  | Decoded t payload =>
      (t = UartMonitor.PKT_KEYBOARD_REPORT \/ t = UartMonitor.PKT_MOUSE_REPORT)
      /\ len payload <= 65535 /\ all_bytes payload
  end.

(** The variable parts of the keyboard line and the button part of the
    mouse line, as [decode_keyboard_report] and [decode_mouse_report] build
    them. *)
Definition modifier_text (modifier : Z) : str :=
  let mod_names :=
    flag modifier 0x01 "LCTRL" ++ flag modifier 0x02 "LSHIFT" ++
    flag modifier 0x04 "LALT" ++ flag modifier 0x08 "LGUI" ++
    flag modifier 0x10 "RCTRL" ++ flag modifier 0x20 "RSHIFT" ++
    flag modifier 0x40 "RALT" ++ flag modifier 0x80 "RGUI" in
  if nonempty mod_names then join (lit "+") mod_names else lit "none".

Definition key_code_text (k : Z) : str := lit "0x" ++ fmt_02X k.

Definition keys_text (keys : list Z) : str :=
  let key_codes :=
    join (lit " ") (map key_code_text (filter (fun k => negb (k =? 0)) keys)) in
  if nonempty key_codes then key_codes else lit "none".

Definition buttons_text (buttons : Z) : str :=
  let btn_names :=
    flag buttons 0x01 "LEFT" ++ flag buttons 0x02 "RIGHT" ++
    flag buttons 0x04 "MIDDLE" in
  if nonempty btn_names then join (lit "+") btn_names else lit "none".

(** The byte values, for properties settled by going through all of them. *)
Definition byte_values : list Z := map Z.of_nat (seq 0 256).

Definition same_text (a b : str) : bool :=
  if list_eq_dec Z.eq_dec a b then true else false.

(** A port on which nothing has been written or printed yet. *)
Definition fresh : port := {| sent := []; shown := [] |}.

Ltac solve_bytes :=
  repeat (apply Forall_cons); try apply Forall_nil;
  unfold is_byte, UartMonitor.PACKET_START; lia.

(** Case analysis on the first comparison left in the goal. *)
Ltac settle_test :=
  match goal with
  | |- context [?a =? ?b] =>
      destruct (Z.eqb_spec a b); [try lia | try lia]
  | |- context [?a <? ?b] =>
      destruct (Z.ltb_spec a b); [try lia | try lia]
  | |- context [?a <=? ?b] =>
      destruct (Z.leb_spec a b); [try lia | try lia]
  end.

(** ** Bytes and the running XOR *)

Section Bytes.

Lemma is_byteb_spec (b : Z) : is_byteb b = true <-> is_byte b.
Proof. unfold is_byteb, is_byte. lia. Qed.

Lemma is_byte_bits (b : Z) :
  is_byte b <-> (forall n, (n < 0 \/ 8 <= n) -> Z.testbit b n = false).
Proof.
  unfold is_byte. split.
  - intros Hb n [Hn | Hn].
    + apply Z.testbit_neg_r; assumption.
    + destruct (Z.eq_dec b 0) as [-> | Hnz]; [apply Z.bits_0 |].
      apply Z.bits_above_log2; [lia |].
      assert (Z.log2 b < 8) by (apply Z.log2_lt_pow2; lia). lia.
  - intros Hbits.
    assert (Hnn : 0 <= b).
    { destruct (Z_lt_le_dec b 0) as [Hneg | ]; [| assumption].
      destruct (Z.bits_iff_neg_ex b) as [Hex _].
      destruct (Hex Hneg) as [k Hk].
      specialize (Hk (Z.max (k + 1) 8)).
      rewrite Hbits in Hk by lia.
      assert (false = true) by (apply Hk; lia). discriminate. }
    split; [assumption |].
    destruct (Z.eq_dec b 0) as [-> | Hnz]; [lia |].
    change 256 with (2 ^ 8). apply Z.log2_lt_pow2; [lia |].
    destruct (Z_lt_le_dec (Z.log2 b) 8) as [ | Hge]; [assumption |].
    assert (Ht : Z.testbit b (Z.log2 b) = true) by (apply Z.bit_log2; lia).
    rewrite Hbits in Ht by lia. discriminate.
Qed.

Lemma lxor_byte (a b : Z) : is_byte a -> is_byte b -> is_byte (Z.lxor a b).
Proof.
  rewrite !is_byte_bits. intros Ha Hb n Hn.
  rewrite Z.lxor_spec, Ha, Hb by assumption. reflexivity.
Qed.

Lemma fold_lxor_byte (l : bytes) (acc : Z) :
  is_byte acc -> all_bytes l -> is_byte (fold_left Z.lxor l acc).
Proof.
  revert acc. induction l as [| b l IH]; intros acc Hacc Hl; simpl.
  - assumption.
  - inversion Hl; subst. apply IH; [apply lxor_byte |]; assumption.
Qed.

Lemma xor_all_byte (l : bytes) : all_bytes l -> is_byte (xor_all l).
Proof. apply fold_lxor_byte. unfold is_byte. lia. Qed.

Lemma fold_lxor_acc (l : bytes) (acc : Z) :
  fold_left Z.lxor l acc = Z.lxor acc (fold_left Z.lxor l 0).
Proof.
  revert acc. induction l as [| b l IH]; intros acc; simpl.
  - now rewrite Z.lxor_0_r.
  - rewrite IH, (IH b), Z.lxor_assoc. reflexivity.
Qed.

Lemma xor_all_app (l1 l2 : bytes) :
  xor_all (l1 ++ l2) = Z.lxor (xor_all l1) (xor_all l2).
Proof. unfold xor_all. rewrite fold_left_app. apply fold_lxor_acc. Qed.

Lemma xor_all_cons (b : Z) (l : bytes) :
  xor_all (b :: l) = Z.lxor b (xor_all l).
Proof.
  change (b :: l) with ([b] ++ l). rewrite xor_all_app.
  unfold xor_all at 1. simpl. reflexivity.
Qed.

(** The two bytes of [struct.pack('<H', n)] read back as [n]. *)
Lemma pack_unpack_H (n : Z) :
  0 <= n <= 65535 ->
  exists lo hi, struct_pack_H n = Ok [lo; hi] /\ is_byte lo /\ is_byte hi
                /\ Z.lor lo (Z.shiftl hi 8) = n.
Proof.
  intros Hn. unfold struct_pack_H.
  replace ((0 <=? n) && (n <=? 65535)) with true by lia.
  exists (Z.land n 255), (Z.land (Z.shiftr n 8) 255).
  change 255 with (Z.ones 8).
  rewrite !Z.land_ones, Z.shiftr_div_pow2, Z.shiftl_mul_pow2 by lia.
  assert (H8 : 2 ^ 8 = 256) by reflexivity. rewrite H8.
  assert (Hlo : 0 <= n mod 256 < 256) by (apply Z.mod_pos_bound; lia).
  assert (Hq : 0 <= n / 256 < 256)
    by (split; [apply Z.div_pos; lia | apply Z.div_lt_upper_bound; lia]).
  rewrite (Z.mod_small (n / 256)) by assumption.
  repeat split; try (unfold is_byte; lia).
  assert (Hland : Z.land (n mod 256) (n / 256 * 256) = 0).
  { apply Z.bits_inj'. intros k Hk. rewrite Z.land_spec, Z.bits_0.
    destruct (Z_lt_le_dec k 8) as [Hlt | Hge].
    - rewrite <- H8, Z.mul_pow2_bits_low by lia. apply andb_false_r.
    - assert (Hb : is_byte (n mod 256)) by (unfold is_byte; lia).
      rewrite is_byte_bits in Hb. rewrite Hb by lia. reflexivity. }
  pose proof (Z.add_lor_land (n mod 256) (n / 256 * 256)) as Hadd.
  pose proof (Z.div_mod n 256). lia.
Qed.

End Bytes.

(** ** Formatting *)

Section Formatting.

Example format_examples :
  fmt_02X 4 = lit "04" /\ fmt_02X 171 = lit "AB" /\ fmt_02X 256 = lit "100" /\
  bytes_hex [1; 171; 255] = lit "01abff" /\
  fmt_plus4d 10 = lit " +10" /\ fmt_plus4d 0 = lit "  +0" /\
  fmt_plus4d (-5) = lit "  -5" /\ fmt_plus4d (-128) = lit "-128" /\
  dec 0 = lit "0" /\ dec 65536 = lit "65536" /\
  join (lit "+") [lit "LCTRL"; lit "RALT"] = lit "LCTRL+RALT".
Proof. repeat split; reflexivity. Qed.

End Formatting.

(** ** The UTF-8 codec *)

Section Codec.

Lemma Ok_inj {A} (a b : A) : Ok a = Ok b -> a = b.
Proof. congruence. Qed.

(** What the encoder writes for one code point, the strict decoder reads
    back as that code point. *)
Lemma utf8_char_roundtrip (c : Z) (b rest : bytes) :
  0 <= c <= 0x10FFFF ->
  utf8_encode_char c = Ok b ->
  all_bytes b /\
  bytes_decode_utf8 (b ++ rest) = option_map (cons c) (bytes_decode_utf8 rest).
Proof.
  intros Hc. unfold utf8_encode_char, between, all_bytes.
  pose proof (Z.div_mod c 64 ltac:(lia)) as E1.
  pose proof (Z.mod_pos_bound c 64 ltac:(lia)) as B1.
  pose proof (Z.div_mod (c / 64) 64 ltac:(lia)) as E2.
  pose proof (Z.mod_pos_bound (c / 64) 64 ltac:(lia)) as B2.
  pose proof (Z.div_mod (c / 4096) 64 ltac:(lia)) as E3.
  pose proof (Z.mod_pos_bound (c / 4096) 64 ltac:(lia)) as B3.
  pose proof (Z.div_mod c 4096 ltac:(lia)) as E4.
  pose proof (Z.mod_pos_bound c 4096 ltac:(lia)) as B4.
  pose proof (Z.div_mod c 262144 ltac:(lia)) as E5.
  pose proof (Z.mod_pos_bound c 262144 ltac:(lia)) as B5.
  set (q1 := c / 64) in *. set (r1 := c mod 64) in *.
  set (r2 := q1 mod 64) in *. set (q2 := q1 / 64) in *.
  set (q4 := c / 4096) in *. set (r4 := c mod 4096) in *.
  set (r3 := q4 mod 64) in *. set (q3 := q4 / 64) in *.
  set (q5 := c / 262144) in *. set (r5 := c mod 262144) in *.
  clearbody q1 r1 q2 r2 q3 r3 q4 r4 q5 r5.
  destruct (Z.ltb_spec c 0x80).
  { intros Hb. apply Ok_inj in Hb. subst b. split.
    - repeat (apply Forall_cons); try apply Forall_nil. unfold is_byte. lia.
    - cbn [app bytes_decode_utf8].
      destruct (Z.ltb_spec c 0x80); [reflexivity | lia]. }
  destruct (Z.ltb_spec c 0x800).
  { intros Hb. apply Ok_inj in Hb. subst b. split.
    - repeat (apply Forall_cons); try apply Forall_nil; unfold is_byte; lia.
    - cbn [app bytes_decode_utf8]. unfold between.
      repeat (settle_test; cbv [andb]).
      do 2 f_equal. lia. }
  destruct (Z.leb_spec 0xD800 c); destruct (Z.leb_spec c 0xDFFF);
    cbv [andb]; try discriminate.
  all: destruct (Z.ltb_spec c 0x10000).
  all: intros Hb; apply Ok_inj in Hb; subst b; split;
    [ repeat (apply Forall_cons); try apply Forall_nil; unfold is_byte; lia
    | cbn [app bytes_decode_utf8]; unfold between;
      repeat (settle_test; cbv [andb]);
      try lia; do 2 f_equal; lia ].
Qed.

Lemma utf8_roundtrip (s : str) (b : bytes) :
  is_str s -> str_encode_utf8 s = Ok b ->
  all_bytes b /\ bytes_decode_utf8 b = Some s.
Proof.
  intros Hs. revert b.
  induction Hs as [| c s Hc Hs IH]; intros b; simpl.
  - intros Hb. apply Ok_inj in Hb. subst b. split; [constructor | reflexivity].
  - destruct (utf8_encode_char c) as [bc | e] eqn:Hbc; [| discriminate].
    cbn [bind].
    destruct (str_encode_utf8 s) as [bs | e] eqn:Hbs; [| discriminate].
    cbn [bind]. intros Hb. apply Ok_inj in Hb. subst b.
    destruct (IH bs eq_refl) as [Hbytes Hdec].
    destruct (utf8_char_roundtrip c bc bs Hc Hbc) as [Hcb Hcd].
    split.
    + apply Forall_app. split; assumption.
    + rewrite Hcd, Hdec. reflexivity.
Qed.

End Codec.

(** ** The encoder *)

Section Encoder.

(** The wire image of a packet: start, type, length (little-endian),
    payload, checksum. *)
Lemma create_packet_wire (t : Z) (payload : bytes) :
  is_byte t -> all_bytes payload -> len payload <= 65535 ->
  exists lo hi,
    is_byte lo /\ is_byte hi /\ Z.lor lo (Z.shiftl hi 8) = len payload /\
    create_packet t (PBytes payload) =
      Ok ([TestUartProtocol.PACKET_START; t; lo; hi] ++ payload
            ++ [xor_all ([TestUartProtocol.PACKET_START; t; lo; hi] ++ payload)]).
Proof.
  intros Ht Hp Hlen.
  destruct (pack_unpack_H (len payload)) as (lo & hi & Hpack & Hlo & Hhi & Hval).
  { split; [unfold len; lia | assumption]. }
  exists lo, hi. repeat split; try assumption; try apply Hlo; try apply Hhi.
  unfold create_packet, bytearray_append. simpl.
  apply is_byteb_spec in Ht. rewrite Ht. simpl.
  rewrite Hpack. simpl.
  assert (Hck : is_byteb (xor_all (TestUartProtocol.PACKET_START :: t :: lo :: hi :: payload)) = true).
  { apply is_byteb_spec, xor_all_byte.
    apply is_byteb_spec in Ht.
    repeat (apply Forall_cons); try assumption.
    unfold is_byte, TestUartProtocol.PACKET_START. lia. }
  rewrite Hck. simpl. reflexivity.
Qed.

Lemma create_packet_too_long (t : Z) (payload : bytes) :
  is_byte t -> 65535 < len payload ->
  create_packet t (PBytes payload) = Raise PayloadTooLarge.
Proof.
  intros Ht Hlen. unfold create_packet, bytearray_append. simpl.
  apply is_byteb_spec in Ht. rewrite Ht. simpl.
  unfold struct_pack_H.
  replace (len payload <=? 65535) with false
    by (symmetry; apply Z.leb_gt; assumption).
  rewrite andb_false_r. reflexivity.
Qed.

End Encoder.

(** ** Single-bit faults *)

Section Faults.

Lemma flip_bit_changes (k b : Z) : 0 <= k -> flip_bit k b <> b.
Proof.
  intros Hk Heq. unfold flip_bit in Heq.
  assert (Hz : Z.shiftl 1 k = 0).
  { transitivity (Z.lxor b (Z.lxor b (Z.shiftl 1 k))).
    - now rewrite <- Z.lxor_assoc, Z.lxor_nilpotent, Z.lxor_0_l.
    - rewrite Heq. apply Z.lxor_nilpotent. }
  rewrite Z.shiftl_mul_pow2 in Hz by assumption.
  pose proof (Z.pow_pos_nonneg 2 k). lia.
Qed.

Lemma lxor_mask_changes (k c : Z) : 0 <= k -> Z.lxor c (Z.shiftl 1 k) <> c.
Proof. apply flip_bit_changes. Qed.

Lemma length_flip_bit_at (i : nat) (k : Z) (wire : bytes) :
  List.length (flip_bit_at i k wire) = List.length wire.
Proof.
  revert i. induction wire as [| b wire IH]; intros [| i]; simpl;
    try reflexivity.
  now rewrite IH.
Qed.

Lemma xor_all_flip_bit_at (i : nat) (k : Z) (wire : bytes) :
  (i < List.length wire)%nat ->
  xor_all (flip_bit_at i k wire) = Z.lxor (xor_all wire) (Z.shiftl 1 k).
Proof.
  revert i. induction wire as [| b wire IH]; intros i Hi; simpl in Hi; [lia |].
  destruct i as [| i]; simpl.
  - rewrite !xor_all_cons. unfold flip_bit.
    rewrite !Z.lxor_assoc. f_equal. apply Z.lxor_comm.
  - rewrite !xor_all_cons, IH by lia. now rewrite Z.lxor_assoc.
Qed.

Lemma flip_bit_at_app_l (i : nat) (k : Z) (wire rest : bytes) :
  (i < List.length wire)%nat ->
  flip_bit_at i k (wire ++ rest) = flip_bit_at i k wire ++ rest.
Proof.
  revert i. induction wire as [| b wire IH]; intros i Hi; simpl in Hi; [lia |].
  destruct i as [| i]; simpl; [reflexivity |].
  now rewrite IH by lia.
Qed.

Lemma flip_bit_at_app_r (k : Z) (wire : bytes) (b : Z) :
  flip_bit_at (List.length wire) k (wire ++ [b]) = wire ++ [flip_bit k b].
Proof. induction wire as [| a wire IH]; simpl; [reflexivity | now rewrite IH]. Qed.

End Faults.

(** ** The framing pass of the monitor loop *)

Section Framing.

Lemma seek_start_quiet (noise ser : bytes) :
  quiet noise -> seek_start (noise ++ ser) = seek_start ser.
Proof.
  induction 1 as [| b noise Hb _ IH]; simpl; [reflexivity |].
  apply Z.eqb_neq in Hb. rewrite Hb. exact IH.
Qed.

Lemma seek_start_found (ser : bytes) :
  seek_start (UartMonitor.PACKET_START :: ser) = Some ser.
Proof. reflexivity. Qed.

Lemma seek_start_length (ser ser' : bytes) :
  seek_start ser = Some ser' -> (List.length ser' < List.length ser)%nat.
Proof.
  revert ser'. induction ser as [| b ser IH]; intros ser'; simpl.
  - discriminate.
  - destruct (b =? UartMonitor.PACKET_START).
    + intros [= ->]. lia.
    + intros H. apply IH in H. lia.
Qed.

Lemma removelast_snoc (l : bytes) (b : Z) : removelast (l ++ [b]) = l.
Proof. apply removelast_last. Qed.

Lemma last_item_snoc (l : bytes) (b : Z) : last_item (l ++ [b]) = Ok b.
Proof. unfold last_item. rewrite rev_app_distr. reflexivity. Qed.

Lemma verify_checksum_snoc (covered : bytes) (recv : Z) :
  verify_checksum (covered ++ [recv]) = Ok (xor_all covered =? recv).
Proof.
  unfold verify_checksum. rewrite removelast_snoc, last_item_snoc.
  reflexivity.
Qed.

Lemma ser_read_exact (data rest : bytes) :
  ser_read (List.length data) (data ++ rest) = (data, rest).
Proof.
  unfold ser_read. rewrite firstn_app, skipn_app, firstn_all, Nat.sub_diag.
  rewrite skipn_all. simpl. now rewrite app_nil_r.
Qed.

Lemma ser_read_header (t lo hi : Z) (ser : bytes) :
  ser_read 3 (t :: lo :: hi :: ser) = ([t; lo; hi], ser).
Proof. reflexivity. Qed.

(** A start byte followed by a complete header, body and checksum byte. *)
Lemma read_frame_complete (noise : bytes) (t lo hi : Z) (payload : bytes)
      (ck : Z) (rest : bytes) :
  quiet noise ->
  len payload = Z.lor lo (Z.shiftl hi 8) ->
  read_frame (noise ++ [UartMonitor.PACKET_START; t; lo; hi]
                ++ payload ++ [ck] ++ rest) =
    Ok (Framed (if xor_all ([UartMonitor.PACKET_START; t; lo; hi] ++ payload) =? ck
                then Decoded t payload else ChecksumError) rest).
Proof.
  intros Hq Hlen. unfold read_frame.
  rewrite seek_start_quiet by assumption.
  cbn [app]. rewrite seek_start_found, ser_read_header.
  cbn [len List.length negb Z.of_nat Z.eqb Pos.eqb Pos.of_succ_nat Pos.succ].
  cbn [slice Nat.sub skipn firstn nth struct_unpack_H bind].
  rewrite <- Hlen.
  replace (Z.to_nat (len payload + 1)) with (List.length (payload ++ [ck]))
    by (rewrite length_app; unfold len; simpl; lia).
  replace (payload ++ ck :: rest) with ((payload ++ [ck]) ++ rest)
    by (rewrite <- app_assoc; reflexivity).
  rewrite ser_read_exact.
  replace (len (payload ++ [ck]) =? len payload + 1) with true
    by (symmetry; apply Z.eqb_eq; unfold len; rewrite length_app;
        cbn [List.length]; lia).
  cbn [negb]. rewrite removelast_snoc, last_item_snoc. cbn [bind].
  change (verify_checksum _) with
    (verify_checksum (([UartMonitor.PACKET_START; t; lo; hi] ++ payload) ++ [ck])).
  rewrite verify_checksum_snoc. cbn [bind].
  destruct (xor_all _ =? ck); reflexivity.
Qed.

(** The transcript ends inside the header. *)
Lemma read_frame_short_header (noise header : bytes) :
  quiet noise -> (List.length header < 3)%nat ->
  read_frame (noise ++ UartMonitor.PACKET_START :: header) =
    Ok (Framed HeaderReadFailure []).
Proof.
  intros Hq Hh. unfold read_frame.
  rewrite seek_start_quiet by assumption.
  rewrite seek_start_found. unfold ser_read.
  rewrite firstn_all2, skipn_all2 by lia.
  replace (len header =? 3) with false
    by (symmetry; apply Z.eqb_neq; unfold len; lia).
  reflexivity.
Qed.

(** The transcript ends inside the body. *)
Lemma read_frame_short_body (noise : bytes) (t lo hi : Z) (data : bytes) :
  quiet noise ->
  len data < Z.lor lo (Z.shiftl hi 8) + 1 ->
  read_frame (noise ++ [UartMonitor.PACKET_START; t; lo; hi] ++ data) =
    Ok (Framed (BodyReadFailure (Z.lor lo (Z.shiftl hi 8) + 1) (len data)) []).
Proof.
  intros Hq Hd. unfold read_frame.
  rewrite seek_start_quiet by assumption.
  cbn [app]. rewrite seek_start_found, ser_read_header.
  cbn [len List.length negb Z.of_nat Z.eqb Pos.eqb Pos.of_succ_nat Pos.succ].
  cbn [slice Nat.sub skipn firstn nth struct_unpack_H bind].
  unfold ser_read.
  rewrite firstn_all2, skipn_all2 by (unfold len in Hd; lia).
  replace (len data =? Z.lor lo (Z.shiftl hi 8) + 1) with false
    by (symmetry; apply Z.eqb_neq; lia).
  reflexivity.
Qed.

(** Every pass that finds something consumes at least the start byte. *)
Lemma read_frame_consumes (ser ser' : bytes) (ev : event) :
  read_frame ser = Ok (Framed ev ser') ->
  (List.length ser' < List.length ser)%nat.
Proof.
  unfold read_frame.
  destruct (seek_start ser) as [s1 |] eqn:Hs; [| discriminate].
  apply seek_start_length in Hs. unfold ser_read.
  assert (H2 : (List.length (skipn 3 s1) <= List.length s1)%nat)
    by (rewrite length_skipn; lia).
  set (s2 := skipn 3 s1) in *. clearbody s2.
  destruct (negb (len (firstn 3 s1) =? 3)).
  { intros [= <- <-]. lia. }
  destruct (struct_unpack_H _) as [pkt_len | e]; cbn [bind]; [| discriminate].
  assert (H3 : (List.length (skipn (Z.to_nat (pkt_len + 1)) s2)
                <= List.length s2)%nat)
    by (rewrite length_skipn; lia).
  set (s3 := skipn (Z.to_nat (pkt_len + 1)) s2) in *. clearbody s3.
  destruct (negb (len _ =? pkt_len + 1)).
  { intros [= <- <-]. lia. }
  destruct (last_item _) as [ck | e]; cbn [bind]; [| discriminate].
  destruct (verify_checksum _) as [ok | e]; cbn [bind]; [| discriminate].
  destruct (negb ok); intros [= <- <-]; lia.
Qed.

End Framing.

(** ** The monitor loop *)

Section Loop.

Lemma main_loop_fuel (fuel1 fuel2 : nat) (ser : bytes) :
  (List.length ser < fuel1)%nat -> (List.length ser < fuel2)%nat ->
  main_loop fuel1 ser = main_loop fuel2 ser.
Proof.
  revert fuel2 ser.
  induction fuel1 as [| f1 IH]; intros fuel2 ser H1 H2; [lia |].
  destruct fuel2 as [| f2]; [lia |]. simpl.
  destruct (read_frame ser) as [[| ev ser'] | e] eqn:Hr; try reflexivity.
  destruct (report ev); [| reflexivity].
  apply read_frame_consumes in Hr.
  rewrite (IH f2 ser') by lia. reflexivity.
Qed.

(** The loop never stops for lack of fuel: a run ends polling for a start
    byte or with an uncaught exception. *)
Lemma main_loop_terminates (fuel : nat) (ser : bytes) :
  (List.length ser < fuel)%nat -> snd (main_loop fuel ser) <> OutOfFuel.
Proof.
  revert ser. induction fuel as [| f IH]; intros ser Hf; [lia |]. simpl.
  destruct (read_frame ser) as [[| ev ser'] | e] eqn:Hr; try discriminate.
  destruct (report ev); [| discriminate].
  apply read_frame_consumes in Hr.
  specialize (IH ser' ltac:(lia)).
  destruct (main_loop f ser'). exact IH.
Qed.

Lemma main_terminates (ser : bytes) : snd (main ser) <> OutOfFuel.
Proof. apply main_loop_terminates. lia. Qed.

Lemma main_starved (ser : bytes) :
  read_frame ser = Ok Starved -> main ser = ([], Polling).
Proof. unfold main. simpl. now intros ->. Qed.

Lemma main_nil : main [] = ([], Polling).
Proof. reflexivity. Qed.

Lemma main_printed (ser ser' : bytes) (ev : event) (line : str) :
  read_frame ser = Ok (Framed ev ser') -> report ev = Ok line ->
  main ser = ((ev, line) :: fst (main ser'), snd (main ser')).
Proof.
  intros Hr Hp. unfold main at 1. simpl. rewrite Hr, Hp.
  apply read_frame_consumes in Hr.
  rewrite (main_loop_fuel _ (S (List.length ser')) ser') by lia.
  fold (main ser'). destruct (main ser'). reflexivity.
Qed.

Lemma main_crashed (ser ser' : bytes) (ev : event) (e : exn) :
  read_frame ser = Ok (Framed ev ser') -> report ev = Raise e ->
  main ser = ([], Crashed e).
Proof. intros Hr Hp. unfold main. simpl. now rewrite Hr, Hp. Qed.

(** The bytes of an encoded packet pass the framing. *)
Lemma created_packet_frames (t : Z) (payload packet : bytes) :
  is_byte t -> all_bytes payload ->
  create_packet t (PBytes payload) = Ok packet ->
  read_frame packet = Ok (Framed (Decoded t payload) []).
Proof.
  intros Ht Hp Hc.
  assert (Hlen : len payload <= 65535).
  { destruct (Z_le_gt_dec (len payload) 65535) as [Hle | Hgt]; [exact Hle |].
    rewrite create_packet_too_long in Hc by (assumption || lia).
    discriminate. }
  destruct (create_packet_wire t payload Ht Hp Hlen)
    as (lo & hi & _ & _ & Hval & Hw).
  rewrite Hw in Hc. apply Ok_inj in Hc. subst packet.
  pose proof (read_frame_complete [] t lo hi payload
                (xor_all ([UartMonitor.PACKET_START; t; lo; hi] ++ payload)) []
                (Forall_nil _) (eq_sym Hval)) as Hf.
  rewrite Z.eqb_refl in Hf. exact Hf.
Qed.

(** A text payload arrives as its UTF-8 bytes, which decode to the text. *)
Lemma str_packet_frames (t : Z) (s : str) (packet : bytes) :
  is_byte t -> is_str s ->
  create_packet t (PStr s) = Ok packet ->
  exists payload,
    str_encode_utf8 s = Ok payload /\
    read_frame packet = Ok (Framed (Decoded t payload) []) /\
    bytes_decode_utf8 payload = Some s.
Proof.
  intros Ht Hs Hc.
  destruct (str_encode_utf8 s) as [payload | e] eqn:Henc.
  - destruct (utf8_roundtrip s payload Hs Henc) as [Hbytes Hdec].
    exists payload. split; [reflexivity |]. split; [| exact Hdec].
    apply created_packet_frames; try assumption.
    unfold create_packet in Hc |- *. rewrite Henc in Hc. exact Hc.
  - unfold create_packet in Hc. rewrite Henc in Hc. discriminate.
Qed.

(** A complete frame whose checksum byte is wrong, at the end of the
    transcript. *)
Lemma main_corrupt_frame (t lo hi : Z) (payload : bytes) (ck : Z) :
  len payload = Z.lor lo (Z.shiftl hi 8) ->
  xor_all ([UartMonitor.PACKET_START; t; lo; hi] ++ payload) <> ck ->
  main ([UartMonitor.PACKET_START; t; lo; hi] ++ payload ++ [ck]) =
    ([(ChecksumError, lit "ERROR: Checksum mismatch")], Polling).
Proof.
  intros Hlen Hck.
  pose proof (read_frame_complete [] t lo hi payload ck [] (Forall_nil _) Hlen)
    as Hf.
  apply Z.eqb_neq in Hck. rewrite Hck in Hf. cbn [app] in Hf |- *.
  rewrite (main_printed _ _ _ _ Hf eq_refl), main_nil. reflexivity.
Qed.

(** On bytes the framing pass raises nothing: short reads and checksum
    mismatches are events, not exceptions. *)
Lemma read_frame_total (ser : bytes) :
  all_bytes ser -> exists sc, read_frame ser = Ok sc.
Proof.
  intros Hser. unfold read_frame.
  destruct (seek_start ser) as [s1 |] eqn:Hs; [| eexists; reflexivity].
  assert (Hs1 : all_bytes s1).
  { clear -Hser Hs. revert s1 Hs.
    induction Hser as [| b ser Hb Hser IH]; intros s1; simpl; [discriminate |].
    destruct (b =? UartMonitor.PACKET_START).
    - intros [= <-]. exact Hser.
    - apply IH. }
  clear Hs Hser.
  destruct s1 as [| t [| lo [| hi s2]]]; try (eexists; reflexivity).
  rewrite ser_read_header.
  cbn [len List.length negb Z.of_nat Z.eqb Pos.eqb Pos.of_succ_nat Pos.succ].
  cbn [slice Nat.sub skipn firstn nth struct_unpack_H bind].
  set (pkt_len := Z.lor lo (Z.shiftl hi 8)).
  assert (Hlen : 0 <= pkt_len).
  { inversion Hs1 as [| ? ? _ H1]; subst.
    inversion H1 as [| ? ? Hlo H2]; subst.
    inversion H2 as [| ? ? Hhi _]; subst.
    unfold is_byte in Hlo, Hhi. unfold pkt_len.
    apply Z.lor_nonneg. split; [lia |]. apply Z.shiftl_nonneg. lia. }
  unfold ser_read.
  destruct (Z.eqb_spec (len (firstn (Z.to_nat (pkt_len + 1)) s2)) (pkt_len + 1))
    as [Hfull | Hshort]; cbn [negb]; [| eexists; reflexivity].
  destruct (firstn (Z.to_nat (pkt_len + 1)) s2) as [| d data] eqn:Hdata.
  { unfold len in Hfull. simpl in Hfull. lia. }
  destruct (exists_last (l := d :: data)) as (body & ck & Hbody);
    [discriminate |].
  rewrite Hbody, last_item_snoc. cbn [bind].
  change ([UartMonitor.PACKET_START; t] ++ [lo; hi] ++ body ++ [ck])
    with (([UartMonitor.PACKET_START; t; lo; hi] ++ body) ++ [ck]).
  rewrite verify_checksum_snoc. cbn [bind].
  destruct (negb _); eexists; reflexivity.
Qed.

Lemma read_frame_bytes (ser ser' : bytes) (ev : event) :
  all_bytes ser -> read_frame ser = Ok (Framed ev ser') -> all_bytes ser'.
Proof.
  intros Hser. unfold read_frame.
  destruct (seek_start ser) as [s1 |] eqn:Hs; [| discriminate].
  assert (Hs1 : all_bytes s1).
  { clear -Hser Hs. revert s1 Hs.
    induction Hser as [| b ser Hb Hser IH]; intros s1; simpl; [discriminate |].
    destruct (b =? UartMonitor.PACKET_START).
    - intros [= <-]. exact Hser.
    - apply IH. }
  unfold ser_read.
  assert (Hskip : forall n (l : bytes), all_bytes l -> all_bytes (skipn n l)).
  { intros n l Hl. apply Forall_forall. intros b Hb.
    apply (proj1 (Forall_forall _ _) Hl). rewrite <- (firstn_skipn n l).
    apply in_or_app. right. exact Hb. }
  assert (H2 : all_bytes (skipn 3 s1)) by (apply Hskip; exact Hs1).
  set (s2 := skipn 3 s1) in *. clearbody s2.
  destruct (negb (len (firstn 3 s1) =? 3)).
  { intros [= <- <-]. exact H2. }
  destruct (struct_unpack_H _) as [pkt_len | e]; cbn [bind]; [| discriminate].
  assert (H3 : all_bytes (skipn (Z.to_nat (pkt_len + 1)) s2))
    by (apply Hskip; exact H2).
  set (s3 := skipn (Z.to_nat (pkt_len + 1)) s2) in *. clearbody s3.
  destruct (negb (len _ =? pkt_len + 1)).
  { intros [= <- <-]. exact H3. }
  destruct (last_item _) as [ck | e]; cbn [bind]; [| discriminate].
  destruct (verify_checksum _) as [ok | e]; cbn [bind]; [| discriminate].
  destruct (negb ok); intros [= <- <-]; exact H3.
Qed.

(** The dispatch step answers for keyboard and mouse reports only. *)
Lemma decode_packet_raises (t : Z) (payload : bytes) :
  t <> UartMonitor.PKT_KEYBOARD_REPORT -> t <> UartMonitor.PKT_MOUSE_REPORT ->
  decode_packet t payload = Raise (NameError "pkt_STATUS").
Proof.
  intros H1 H2. unfold decode_packet.
  apply Z.eqb_neq in H1, H2. rewrite H1, H2. reflexivity.
Qed.

Lemma decode_packet_answers (t : Z) (payload : bytes) :
  t = UartMonitor.PKT_KEYBOARD_REPORT \/ t = UartMonitor.PKT_MOUSE_REPORT ->
  exists line, decode_packet t payload = Ok line.
Proof.
  intros [-> | ->]; unfold decode_packet; simpl; eexists; reflexivity.
Qed.

Lemma report_raises (ev : event) (e : exn) :
  report ev = Raise e -> e = NameError "pkt_STATUS".
Proof.
  destruct ev as [| expected got | | t payload]; simpl; try discriminate.
  unfold decode_packet.
  destruct (t =? UartMonitor.PKT_KEYBOARD_REPORT); [discriminate |].
  destruct (t =? UartMonitor.PKT_MOUSE_REPORT); [discriminate |].
  simpl. congruence.
Qed.

(** A run on bytes ends in one of two ways: the transcript is used up and
    the loop polls for a start byte, or the dispatch step has raised the
    NameError. *)
Lemma main_loop_outcome (fuel : nat) (ser : bytes) :
  all_bytes ser -> (List.length ser < fuel)%nat ->
  snd (main_loop fuel ser) = Polling \/
  snd (main_loop fuel ser) = Crashed (NameError "pkt_STATUS").
Proof.
  revert ser.
  induction fuel as [| f IH]; intros ser Hser Hf; [lia |]. simpl.
  destruct (read_frame_total ser Hser) as [sc Hsc]. rewrite Hsc.
  destruct sc as [| ev ser']; [left; reflexivity |].
  destruct (report ev) as [line | e] eqn:Hrep.
  - pose proof (read_frame_consumes _ _ _ Hsc).
    specialize (IH ser' (read_frame_bytes _ _ _ Hser Hsc) ltac:(lia)).
    destruct (main_loop f ser'). exact IH.
  - right. apply report_raises in Hrep. subst e. reflexivity.
Qed.

Lemma main_outcome (ser : bytes) :
  all_bytes ser ->
  snd (main ser) = Polling \/
  snd (main ser) = Crashed (NameError "pkt_STATUS").
Proof. intros Hser. apply main_loop_outcome; [exact Hser | lia]. Qed.

End Loop.


(** ** Properties of the encoder *)

Section EncoderProperties.

(** C7: for a type byte and a byte payload, [create_packet] fails with
    PayloadTooLarge when the payload is longer than 65535 bytes, succeeds
    when it is not, and fails in no other way. *)
Theorem create_packet_failure_mode (t : Z) (payload : bytes) :
  is_byte t -> all_bytes payload ->
  (65535 < len payload ->
     create_packet t (PBytes payload) = Raise PayloadTooLarge) /\
  (len payload <= 65535 ->
     exists packet, create_packet t (PBytes payload) = Ok packet) /\
  (forall e, create_packet t (PBytes payload) = Raise e ->
     e = PayloadTooLarge /\ 65535 < len payload).
Proof.
  intros Ht Hp.
  assert (Hlong : 65535 < len payload ->
                  create_packet t (PBytes payload) = Raise PayloadTooLarge)
    by (apply create_packet_too_long; assumption).
  assert (Hshort : len payload <= 65535 ->
                   exists packet, create_packet t (PBytes payload) = Ok packet).
  { intros Hlen.
    destruct (create_packet_wire t payload Ht Hp Hlen) as (lo & hi & _ & _ & _ & H).
    eexists. exact H. }
  split; [exact Hlong | split; [exact Hshort |]].
  intros e He.
  destruct (Z_le_gt_dec (len payload) 65535) as [Hle | Hgt].
  - destruct (Hshort Hle) as [packet Hok]. congruence.
  - rewrite Hlong in He by lia. split; [congruence | lia].
Qed.

Lemma create_packet_failure_mode_witness :
  is_byte 1 /\ all_bytes [2; 0; 4; 0; 0; 0; 0; 0] /\
  exists packet, create_packet 1 (PBytes [2; 0; 4; 0; 0; 0; 0; 0]) = Ok packet.
Proof.
  assert (Ht : is_byte 1) by (unfold is_byte; lia).
  assert (Hp : all_bytes [2; 0; 4; 0; 0; 0; 0; 0]) by solve_bytes.
  split; [exact Ht | split; [exact Hp |]].
  apply (create_packet_failure_mode 1 [2; 0; 4; 0; 0; 0; 0; 0] Ht Hp).
  vm_compute. discriminate.
Defined.

Example create_packet_too_large :
  create_packet 1 (PBytes (repeat 0 (Z.to_nat 65536))) = Raise PayloadTooLarge /\
  exists packet,
    create_packet 1 (PBytes (repeat 0 (Z.to_nat 65535))) = Ok packet.
Proof.
  assert (Ht : is_byte 1) by (unfold is_byte; lia).
  split.
  - apply create_packet_too_long; [exact Ht |].
    unfold len. rewrite repeat_length. lia.
  - destruct (create_packet_wire 1 (repeat 0 (Z.to_nat 65535)) Ht)
      as (lo & hi & _ & _ & _ & H).
    + apply Forall_forall. intros b Hb. apply repeat_spec in Hb.
      subst b. unfold is_byte. lia.
    + unfold len. rewrite repeat_length. lia.
    + eexists. exact H.
Qed.

(** C10: a [str] payload is encoded as UTF-8 and the bytes are framed as a
    [bytes] payload is; a string that has no UTF-8 encoding fails with the
    codec's error. *)
Theorem create_packet_str (t : Z) (s : str) :
  create_packet t (PStr s) =
    (payload <- str_encode_utf8 s ;; create_packet t (PBytes payload)).
Proof.
  unfold create_packet. destruct (str_encode_utf8 s); reflexivity.
Qed.

(** "h", e-acute, euro sign: one, two and three bytes of UTF-8; a lone
    surrogate has no encoding. *)
Example create_packet_str_example :
  create_packet 4 (PStr [104; 233; 8364])
    = create_packet 4 (PBytes [104; 195; 169; 226; 130; 172]) /\
  create_packet 4 (PStr [104; 233; 8364])
    = Ok [170; 4; 6; 0; 104; 195; 169; 226; 130; 172; 102] /\
  create_packet 4 (PStr [0xD800]) = Raise UnicodeEncodeError.
Proof. repeat split; reflexivity. Qed.

End EncoderProperties.

(** ** Properties of the decoder *)

Section DecoderProperties.

(** C1: the bytes [create_packet] builds for a type byte and a payload of
    at most 65535 bytes take the framing pass from the start marker through
    header, body and checksum test to the same type and payload, with
    nothing left unread. *)
Theorem roundtrip (t : Z) (payload : bytes) :
  is_byte t -> all_bytes payload -> len payload <= 65535 ->
  exists packet,
    create_packet t (PBytes payload) = Ok packet /\
    seek_start packet = Some (tl packet) /\
    read_frame packet = Ok (Framed (Decoded t payload) []).
Proof.
  intros Ht Hp Hlen.
  destruct (create_packet_wire t payload Ht Hp Hlen)
    as (lo & hi & _ & _ & _ & Hwire).
  eexists. split; [exact Hwire |]. split; [reflexivity |].
  apply created_packet_frames; assumption.
Qed.

Lemma roundtrip_witness :
  exists packet,
    create_packet 2 (PBytes [1; 10; 251]) = Ok packet /\
    seek_start packet = Some (tl packet) /\
    read_frame packet = Ok (Framed (Decoded 2 [1; 10; 251]) []).
Proof.
  apply (roundtrip 2 [1; 10; 251]).
  - unfold is_byte. lia.
  - solve_bytes.
  - vm_compute. discriminate.
Defined.

(** C4: once header and body have been read, the pass yields
    [Decoded type payload] exactly when the received checksum byte is the
    XOR of start byte, type byte, the two length bytes and the payload
    bytes; otherwise it yields [ChecksumError] and no payload.  Either way
    the next pass starts right behind the checksum byte. *)
Theorem checksum_gate (noise : bytes) (t lo hi : Z) (payload : bytes)
        (ck : Z) (rest : bytes) :
  quiet noise ->
  len payload = Z.lor lo (Z.shiftl hi 8) ->
  let ser := noise ++ [UartMonitor.PACKET_START; t; lo; hi]
                   ++ payload ++ [ck] ++ rest in
  let expected := xor_all ([UartMonitor.PACKET_START; t; lo; hi] ++ payload) in
  (read_frame ser = Ok (Framed (Decoded t payload) rest) <-> ck = expected) /\
  (read_frame ser = Ok (Framed ChecksumError rest) <-> ck <> expected) /\
  (forall t' payload' rest',
     read_frame ser = Ok (Framed (Decoded t' payload') rest') -> ck = expected).
Proof.
  intros Hq Hlen ser expected.
  pose proof (read_frame_complete noise t lo hi payload ck rest Hq Hlen) as Hf.
  fold ser expected in Hf. rewrite Hf.
  destruct (Z.eqb_spec expected ck) as [Heq | Hne].
  - repeat split; intros; congruence.
  - repeat split; intros; congruence.
Qed.

Lemma checksum_gate_witness :
  read_frame ([7; 9] ++ [170; 2; 3; 0] ++ [1; 10; 251] ++ [91] ++ [170])
    = Ok (Framed (Decoded 2 [1; 10; 251]) [170]) /\
  read_frame ([7; 9] ++ [170; 2; 3; 0] ++ [1; 10; 251] ++ [90] ++ [170])
    = Ok (Framed ChecksumError [170]).
Proof.
  split.
  - apply (checksum_gate [7; 9] 2 3 0 [1; 10; 251] 91 [170]);
      [solve_bytes | reflexivity | reflexivity].
  - apply (checksum_gate [7; 9] 2 3 0 [1; 10; 251] 90 [170]);
      [solve_bytes | reflexivity | vm_compute; discriminate].
Defined.

(** C6: a transcript that ends inside the header makes the loop print one
    header failure, one that ends inside the body makes it print one body
    failure with the expected and the received byte count; nothing is
    decoded, and the loop is back at polling for a start byte. *)
Theorem truncation_recovery (noise : bytes) :
  quiet noise ->
  (forall header,
     (List.length header < 3)%nat ->
     main (noise ++ UartMonitor.PACKET_START :: header) =
       ([(HeaderReadFailure, lit "ERROR: Failed to read header")], Polling)) /\
  (forall t lo hi data,
     len data < Z.lor lo (Z.shiftl hi 8) + 1 ->
     main (noise ++ [UartMonitor.PACKET_START; t; lo; hi] ++ data) =
       ([(BodyReadFailure (Z.lor lo (Z.shiftl hi 8) + 1) (len data),
          lit "ERROR: Failed to read payload (expected "
            ++ dec (Z.lor lo (Z.shiftl hi 8) + 1) ++ lit ", got "
            ++ dec (len data) ++ lit ")")],
        Polling)).
Proof.
  intros Hq. split.
  - intros header Hh.
    rewrite (main_printed _ _ _ _ (read_frame_short_header noise header Hq Hh)
                          eq_refl).
    rewrite main_nil. reflexivity.
  - intros t lo hi data Hd.
    rewrite (main_printed _ _ _ _ (read_frame_short_body noise t lo hi data Hq Hd)
                          eq_refl).
    rewrite main_nil. reflexivity.
Qed.

Lemma truncation_recovery_witness :
  quiet [3; 4] /\
  main ([3; 4] ++ UartMonitor.PACKET_START :: [1; 8]) =
    ([(HeaderReadFailure, lit "ERROR: Failed to read header")], Polling) /\
  main ([3; 4] ++ [UartMonitor.PACKET_START; 1; 8; 0] ++ [2; 0; 4]) =
    ([(BodyReadFailure 9 3,
       lit "ERROR: Failed to read payload (expected 9, got 3)")], Polling).
Proof.
  assert (Hq : quiet [3; 4]) by solve_bytes.
  split; [exact Hq |]. split.
  - apply (proj1 (truncation_recovery [3; 4] Hq) [1; 8]). simpl. lia.
  - apply (proj2 (truncation_recovery [3; 4] Hq) 1 8 0 [2; 0; 4]).
    vm_compute. reflexivity.
Defined.

End DecoderProperties.

Section ChecksumSensitivity.

(** C8, as stated, fails where the fault hits the framing itself: with bit 0
    of the start byte of the empty keyboard packet inverted the loop finds
    no start marker and prints nothing, and with bit 0 of the low or of the
    high length byte inverted it prints a body failure; none of these runs
    reports a checksum error.  A shortened length can even pass the
    checksum test: in the packet of type 1 with payload AB the same fault
    leaves an empty payload followed by AB, which is the XOR of the bytes
    before it. *)
Lemma flipped_framing_byte_not_checksum_error :
  create_packet 1 (PBytes []) = Ok [170; 1; 0; 0; 171] /\
  main (flip_bit_at 0 0 [170; 1; 0; 0; 171]) = ([], Polling) /\
  events (main (flip_bit_at 2 0 [170; 1; 0; 0; 171])) = [BodyReadFailure 2 1] /\
  events (main (flip_bit_at 3 0 [170; 1; 0; 0; 171])) = [BodyReadFailure 257 1] /\
  ~ In ChecksumError (events (main (flip_bit_at 0 0 [170; 1; 0; 0; 171]))) /\
  ~ In ChecksumError (events (main (flip_bit_at 2 0 [170; 1; 0; 0; 171]))) /\
  ~ In ChecksumError (events (main (flip_bit_at 3 0 [170; 1; 0; 0; 171]))) /\
  create_packet 1 (PBytes [171]) = Ok [170; 1; 1; 0; 171; 1] /\
  events (main (flip_bit_at 2 0 [170; 1; 1; 0; 171; 1])) = [Decoded 1 []].
Proof.
  repeat split; try reflexivity.
  - vm_compute. intros H. exact H.
  - vm_compute. intros [H | H]; [discriminate H | exact H].
  - vm_compute. intros [H | H]; [discriminate H | exact H].
Qed.

(** C8, amended: one inverted bit in the type byte, in a payload byte or in
    the checksum byte of an encoded packet makes the loop print exactly one
    checksum error and decode nothing. *)
Theorem checksum_sensitivity (t : Z) (payload packet : bytes) (i : nat) (k : Z) :
  is_byte t -> all_bytes payload ->
  create_packet t (PBytes payload) = Ok packet ->
  0 <= k < 8 ->
  (i = 1 \/ 4 <= i < List.length packet)%nat ->
  main (flip_bit_at i k packet) =
    ([(ChecksumError, lit "ERROR: Checksum mismatch")], Polling).
Proof.
  intros Ht Hp Hpkt Hk Hi.
  assert (Hlen : len payload <= 65535).
  { destruct (Z_le_gt_dec (len payload) 65535) as [Hle | Hgt]; [exact Hle |].
    rewrite create_packet_too_long in Hpkt by (assumption || lia).
    discriminate. }
  destruct (create_packet_wire t payload Ht Hp Hlen)
    as (lo & hi & _ & _ & Hval & Hwire).
  change TestUartProtocol.PACKET_START with UartMonitor.PACKET_START in Hwire.
  set (covered := [UartMonitor.PACKET_START; t; lo; hi] ++ payload) in *.
  assert (Hpacket : packet = covered ++ [xor_all covered]).
  { rewrite Hwire in Hpkt. injection Hpkt as <-. reflexivity. }
  subst packet. clear Hpkt Hwire.
  symmetry in Hval.
  destruct Hi as [-> | [Hlo Hhi]].
  - (* the type byte *)
    change (flip_bit_at 1 k (covered ++ [xor_all covered]))
      with ([UartMonitor.PACKET_START; flip_bit k t; lo; hi] ++ payload
              ++ [xor_all covered]).
    apply main_corrupt_frame; [exact Hval |].
    change ([UartMonitor.PACKET_START; flip_bit k t; lo; hi] ++ payload)
      with (flip_bit_at 1 k covered).
    rewrite xor_all_flip_bit_at by (unfold covered; simpl; lia).
    apply lxor_mask_changes. lia.
  - rewrite length_app in Hhi. cbn [List.length] in Hhi.
    destruct (Nat.eq_dec i (List.length covered)) as [-> | Hne].
    + (* the checksum byte *)
      rewrite flip_bit_at_app_r. unfold covered. rewrite <- app_assoc.
      apply main_corrupt_frame; [exact Hval |].
      intros Heq. symmetry in Heq. revert Heq.
      apply flip_bit_changes. lia.
    + (* a payload byte *)
      assert (Hin : (i < List.length covered)%nat) by lia.
      rewrite flip_bit_at_app_l by exact Hin.
      assert (Hsplit : flip_bit_at i k covered =
                [UartMonitor.PACKET_START; t; lo; hi]
                  ++ flip_bit_at (i - 4) k payload).
      { replace i with (4 + (i - 4))%nat at 1 by lia. reflexivity. }
      rewrite Hsplit, <- app_assoc.
      apply main_corrupt_frame.
      * unfold len. rewrite length_flip_bit_at. exact Hval.
      * rewrite <- Hsplit, xor_all_flip_bit_at by exact Hin.
        apply lxor_mask_changes. lia.
Qed.

Lemma checksum_sensitivity_witness :
  main (flip_bit_at 5 7 [170; 2; 3; 0; 1; 10; 251; 91]) =
    ([(ChecksumError, lit "ERROR: Checksum mismatch")], Polling).
Proof.
  apply (checksum_sensitivity 2 [1; 10; 251] [170; 2; 3; 0; 1; 10; 251; 91] 5 7).
  - unfold is_byte. lia.
  - solve_bytes.
  - reflexivity.
  - lia.
  - right. simpl. lia.
Defined.

End ChecksumSensitivity.

Section Dispatch.

Lemma struct_unpack_b_signed (b : Z) :
  is_byte b ->
  -128 <= struct_unpack_b b < 128 /\ struct_unpack_b b mod 256 = b.
Proof.
  unfold is_byte, struct_unpack_b. intros Hb.
  destruct (Z.ltb_spec b 128).
  - split; [lia |]. apply Z.mod_small. lia.
  - split; [lia |].
    replace (b - 256) with (b + (-1) * 256) by lia.
    rewrite Z.mod_add by lia. apply Z.mod_small. lia.
Qed.

(** The sender masks the signed deltas to a byte; the monitor reads the
    byte back as the delta. *)
Lemma mouse_payload_roundtrip (buttons dx dy : Z) :
  -128 <= dx < 128 -> -128 <= dy < 128 ->
  x (mouse_report_locals (mouse_payload buttons dx dy)) = dx /\
  y (mouse_report_locals (mouse_payload buttons dx dy)) = dy.
Proof.
  assert (H : forall v, -128 <= v < 128 -> struct_unpack_b (Z.land v 255) = v).
  { intros v Hv. change 255 with (Z.ones 8). rewrite Z.land_ones by lia.
    change (2 ^ 8) with 256. unfold struct_unpack_b.
    destruct (Z_lt_le_dec v 0) as [Hneg | Hpos].
    - replace (v mod 256) with (v + 256).
      + destruct (Z.ltb_spec (v + 256) 128); lia.
      + symmetry. replace v with (v + 256 + (-1) * 256) at 1 by lia.
        rewrite Z.mod_add by lia. apply Z.mod_small. lia.
    - rewrite Z.mod_small by lia. destruct (Z.ltb_spec v 128); lia. }
  intros Hx Hy. unfold mouse_payload, mouse_report_locals. simpl.
  split; apply H; assumption.
Qed.

Example keyboard_report_example :
  decode_keyboard_report (keyboard_payload 0x02 [0x04; 0; 0; 0; 0; 0])
    = lit "KEYBOARD: mod=LSHIFT, keys=[0x04]" /\
  decode_keyboard_report [0x02; 0x00; 0x04]
    = lit "Invalid keyboard report length: 3".
Proof. split; reflexivity. Qed.

(** C9: for a payload of three bytes or more the mouse decode returns the
    line made of the button names and of payload bytes 1 and 2 read as
    two's-complement signed bytes, each printed with its sign; the payload
    01 0A FB decodes to button LEFT, x = +10, y = -5; and the payload
    decodes as its first three bytes do. *)
Theorem mouse_report_decode (payload : bytes) :
  all_bytes payload -> 3 <= len payload ->
  let m := mouse_report_locals payload in
  (mouse_report_locals [0x01; 0x0A; 0xFB]
     = {| btn_names := [lit "LEFT"]; x := 10; y := -5 |} /\
   decode_packet UartMonitor.PKT_MOUSE_REPORT [0x01; 0x0A; 0xFB]
     = Ok (lit "MOUSE: buttons=LEFT, x= +10, y=  -5")) /\
  (-128 <= x m < 128 /\ x m mod 256 = nth 1 payload 0) /\
  (-128 <= y m < 128 /\ y m mod 256 = nth 2 payload 0) /\
  mouse_report_locals (firstn 3 payload) = m /\
  decode_mouse_report (firstn 3 payload) = decode_mouse_report payload /\
  decode_mouse_report payload =
    lit "MOUSE: buttons="
      ++ (if nonempty (btn_names m) then join (lit "+") (btn_names m)
          else lit "none")
      ++ lit ", x=" ++ fmt_plus4d (x m) ++ lit ", y=" ++ fmt_plus4d (y m) /\
  decode_packet UartMonitor.PKT_MOUSE_REPORT payload
    = Ok (decode_mouse_report payload).
Proof.
  intros Hp Hlen m.
  assert (Hline : decode_mouse_report payload =
            lit "MOUSE: buttons="
              ++ (if nonempty (btn_names m) then join (lit "+") (btn_names m)
                  else lit "none")
              ++ lit ", x=" ++ fmt_plus4d (x m) ++ lit ", y="
              ++ fmt_plus4d (y m)).
  { unfold decode_mouse_report.
    replace (len payload <? 3) with false
      by (symmetry; apply Z.ltb_ge; exact Hlen).
    reflexivity. }
  destruct payload as [| b0 [| b1 [| b2 extra]]];
    try (unfold len in Hlen; simpl in Hlen; lia).
  inversion Hp as [| ? ? _ Hp1]; subst.
  inversion Hp1 as [| ? ? Hb1 Hp2]; subst.
  inversion Hp2 as [| ? ? Hb2 _]; subst.
  split; [split; reflexivity |].
  split; [exact (struct_unpack_b_signed b1 Hb1) |].
  split; [exact (struct_unpack_b_signed b2 Hb2) |].
  split; [reflexivity |].
  split; [| split; [exact Hline | reflexivity]].
  unfold decode_mouse_report.
  replace (len (firstn 3 (b0 :: b1 :: b2 :: extra)) <? 3) with false
    by reflexivity.
  replace (len (b0 :: b1 :: b2 :: extra) <? 3) with false
    by (symmetry; apply Z.ltb_ge; exact Hlen).
  reflexivity.
Qed.

Lemma mouse_report_decode_witness :
  mouse_report_locals (firstn 3 [3; 130; 5; 9; 9])
    = mouse_report_locals [3; 130; 5; 9; 9] /\
  decode_mouse_report (firstn 3 [3; 130; 5; 9; 9])
    = decode_mouse_report [3; 130; 5; 9; 9] /\
  decode_mouse_report [3; 130; 5; 9; 9]
    = lit "MOUSE: buttons=LEFT+RIGHT, x=-126, y=  +5" /\
  decode_packet UartMonitor.PKT_MOUSE_REPORT [3; 130; 5; 9; 9]
    = Ok (decode_mouse_report [3; 130; 5; 9; 9]).
Proof.
  destruct (mouse_report_decode [3; 130; 5; 9; 9])
    as (_ & _ & _ & Hlocals & Hfirst & Hline & Hdispatch).
  - solve_bytes.
  - vm_compute. discriminate.
  - split; [exact Hlocals |]. split; [exact Hfirst |].
    split; [| exact Hdispatch].
    rewrite Hline. reflexivity.
Defined.

(** C2 fails on the code: a well-formed status packet makes the dispatch
    step raise NameError, and the exception ends the monitor loop. *)
Theorem status_packet_stops_the_loop :
  create_packet TestUartProtocol.PKT_STATUS (PStr (lit "hi"))
    = Ok [170; 4; 2; 0; 104; 105; 173] /\
  read_frame [170; 4; 2; 0; 104; 105; 173]
    = Ok (Framed (Decoded 4 [104; 105]) []) /\
  decode_packet 4 [104; 105] = Raise (NameError "pkt_STATUS") /\
  main [170; 4; 2; 0; 104; 105; 173] = ([], Crashed (NameError "pkt_STATUS")).
Proof. repeat split; reflexivity. Qed.

(** C3 fails on the code: a packet of the unassigned type 0x09 makes the
    dispatch step raise NameError instead of returning the unknown-type
    line, and the keyboard packet behind it is never read. *)
Theorem unknown_type_stops_the_loop :
  create_packet 0x09 (PBytes [1; 2]) = Ok [170; 9; 2; 0; 1; 2; 162] /\
  create_packet 0x01 (PBytes [2; 0; 4; 0; 0; 0; 0; 0])
    = Ok [170; 1; 8; 0; 2; 0; 4; 0; 0; 0; 0; 0; 165] /\
  decode_packet 0x09 [1; 2] = Raise (NameError "pkt_STATUS") /\
  main ([170; 9; 2; 0; 1; 2; 162]
          ++ [170; 1; 8; 0; 2; 0; 4; 0; 0; 0; 0; 0; 165])
    = ([], Crashed (NameError "pkt_STATUS")) /\
  main [170; 1; 8; 0; 2; 0; 4; 0; 0; 0; 0; 0; 165]
    = ([(Decoded 1 [2; 0; 4; 0; 0; 0; 0; 0],
         lit "KEYBOARD: mod=LSHIFT, keys=[0x04]")], Polling).
Proof. repeat split; reflexivity. Qed.

(** C5 fails on the code when the first packet is neither a keyboard nor a
    mouse report: on noise, an ACK packet, noise and a mouse packet the loop
    prints nothing and ends with the NameError raised at the dispatch of
    the first packet; the second packet is never read. *)
Theorem resync_stops_at_first_undispatched_packet :
  quiet [0; 255; 17] /\ quiet [85] /\
  create_packet TestUartProtocol.PKT_ACK (PBytes []) = Ok [170; 5; 0; 0; 175] /\
  create_packet TestUartProtocol.PKT_MOUSE_REPORT (PBytes [1; 10; 251])
    = Ok [170; 2; 3; 0; 1; 10; 251; 91] /\
  main ([0; 255; 17] ++ [170; 5; 0; 0; 175] ++ [85]
          ++ [170; 2; 3; 0; 1; 10; 251; 91])
    = ([], Crashed (NameError "pkt_STATUS")).
Proof.
  split; [solve_bytes |]. split; [solve_bytes |].
  repeat split; reflexivity.
Qed.

(** What does hold: between packets the dispatch step answers for, noise
    without a start marker costs nothing, and both packets are decoded. *)
Lemma resync_dispatched (noise1 noise2 : bytes) (t1 t2 : Z)
      (payload1 payload2 packet1 packet2 : bytes) (line1 line2 : str) :
  quiet noise1 -> quiet noise2 ->
  is_byte t1 -> all_bytes payload1 ->
  is_byte t2 -> all_bytes payload2 ->
  create_packet t1 (PBytes payload1) = Ok packet1 ->
  create_packet t2 (PBytes payload2) = Ok packet2 ->
  decode_packet t1 payload1 = Ok line1 ->
  decode_packet t2 payload2 = Ok line2 ->
  main (noise1 ++ packet1 ++ noise2 ++ packet2) =
    ([(Decoded t1 payload1, line1); (Decoded t2 payload2, line2)], Polling).
Proof.
  intros Hq1 Hq2 Ht1 Hp1 Ht2 Hp2 Hc1 Hc2 Hd1 Hd2.
  assert (Hwire : forall t payload packet,
            is_byte t -> all_bytes payload ->
            create_packet t (PBytes payload) = Ok packet ->
            exists lo hi,
              len payload = Z.lor lo (Z.shiftl hi 8) /\
              packet = [UartMonitor.PACKET_START; t; lo; hi] ++ payload
                         ++ [xor_all ([UartMonitor.PACKET_START; t; lo; hi]
                                        ++ payload)]).
  { intros t payload packet Ht Hp Hc.
    assert (Hlen : len payload <= 65535).
    { destruct (Z_le_gt_dec (len payload) 65535) as [Hle | Hgt]; [exact Hle |].
      rewrite create_packet_too_long in Hc by (assumption || lia).
      discriminate. }
    destruct (create_packet_wire t payload Ht Hp Hlen)
      as (lo & hi & _ & _ & Hval & Hw).
    exists lo, hi. split; [symmetry; exact Hval |].
    rewrite Hw in Hc. injection Hc as <-. reflexivity. }
  destruct (Hwire _ _ _ Ht1 Hp1 Hc1) as (lo1 & hi1 & Hv1 & ->).
  destruct (Hwire _ _ _ Ht2 Hp2 Hc2) as (lo2 & hi2 & Hv2 & ->).
  clear Hwire Hc1 Hc2.
  set (ck1 := xor_all ([UartMonitor.PACKET_START; t1; lo1; hi1] ++ payload1)).
  set (ck2 := xor_all ([UartMonitor.PACKET_START; t2; lo2; hi2] ++ payload2)).
  set (wire2 := [UartMonitor.PACKET_START; t2; lo2; hi2] ++ payload2 ++ [ck2]).
  pose proof (read_frame_complete noise1 t1 lo1 hi1 payload1 ck1
                (noise2 ++ wire2) Hq1 Hv1) as Hf1.
  pose proof (read_frame_complete noise2 t2 lo2 hi2 payload2 ck2 [] Hq2 Hv2)
    as Hf2.
  fold ck1 in Hf1. fold ck2 in Hf2. rewrite Z.eqb_refl in Hf1, Hf2.
  replace (noise1 ++ ([UartMonitor.PACKET_START; t1; lo1; hi1] ++ payload1
                        ++ [ck1]) ++ noise2 ++ wire2)
    with (noise1 ++ [UartMonitor.PACKET_START; t1; lo1; hi1] ++ payload1
                 ++ [ck1] ++ noise2 ++ wire2)
    by (now rewrite <- !app_assoc).
  rewrite (main_printed _ _ _ _ Hf1 Hd1).
  replace (noise2 ++ wire2)
    with (noise2 ++ [UartMonitor.PACKET_START; t2; lo2; hi2] ++ payload2
                 ++ [ck2] ++ [])
    by reflexivity.
  rewrite (main_printed _ _ _ _ Hf2 Hd2), main_nil. reflexivity.
Qed.

(** One encoded packet on the wire: the loop prints the dispatch step's
    line, or ends with the exception the dispatch step raises. *)
Lemma main_single_packet (t : Z) (payload packet : bytes) :
  is_byte t -> all_bytes payload ->
  create_packet t (PBytes payload) = Ok packet ->
  main packet =
    match decode_packet t payload with
    | Ok line => ([(Decoded t payload, line)], Polling)
    | Raise e => ([], Crashed e)
    end.
Proof.
  intros Ht Hp Hc.
  pose proof (created_packet_frames t payload packet Ht Hp Hc) as Hf.
  destruct (decode_packet t payload) as [line | e] eqn:Hd.
  - rewrite (main_printed _ _ _ _ Hf Hd), main_nil. reflexivity.
  - apply (main_crashed _ _ _ _ Hf Hd).
Qed.

End Dispatch.

(** ** Further properties of the wire format *)

Section WireFormat.

Lemma lor_shift_add (lo hi : Z) :
  is_byte lo -> 0 <= hi -> Z.lor lo (Z.shiftl hi 8) = lo + 256 * hi.
Proof.
  intros Hlo Hhi. rewrite Z.shiftl_mul_pow2 by lia. change (2 ^ 8) with 256.
  assert (Hland : Z.land lo (hi * 256) = 0).
  { apply Z.bits_inj'. intros k Hk. rewrite Z.land_spec, Z.bits_0.
    destruct (Z_lt_le_dec k 8) as [Hlt | Hge].
    - change 256 with (2 ^ 8). rewrite Z.mul_pow2_bits_low by lia.
      apply andb_false_r.
    - rewrite is_byte_bits in Hlo. rewrite Hlo by lia. reflexivity. }
  pose proof (Z.add_lor_land lo (hi * 256)). lia.
Qed.

Lemma struct_pack_H_div_mod (n : Z) :
  0 <= n <= 65535 -> struct_pack_H n = Ok [n mod 256; n / 256].
Proof.
  intros Hn. unfold struct_pack_H.
  replace ((0 <=? n) && (n <=? 65535)) with true by lia.
  change 255 with (Z.ones 8).
  rewrite !Z.land_ones, Z.shiftr_div_pow2 by lia. change (2 ^ 8) with 256.
  rewrite (Z.mod_small (n / 256))
    by (split; [apply Z.div_pos; lia | apply Z.div_lt_upper_bound; lia]).
  reflexivity.
Qed.

Lemma xor_all_snoc_self (covered : bytes) :
  xor_all (covered ++ [xor_all covered]) = 0.
Proof.
  rewrite xor_all_app, (xor_all_cons _ []).
  unfold xor_all at 3. simpl. rewrite Z.lxor_0_r. apply Z.lxor_nilpotent.
Qed.

(** X1: a packet is start byte, type, payload length as low byte then high
    byte, the payload and one checksum byte; it is five bytes longer than
    the payload, consists of bytes, and the XOR of all its bytes is 0. *)
Theorem create_packet_layout (t : Z) (payload : bytes) :
  is_byte t -> all_bytes payload -> len payload <= 65535 ->
  let head := [0xAA; t; len payload mod 256; len payload / 256] in
  exists ck,
    create_packet t (PBytes payload) = Ok (head ++ payload ++ [ck]) /\
    ck = xor_all (head ++ payload) /\
    all_bytes (head ++ payload ++ [ck]) /\
    len (head ++ payload ++ [ck]) = len payload + 5 /\
    xor_all (head ++ payload ++ [ck]) = 0.
Proof.
  intros Ht Hp Hlen head.
  assert (Hn : 0 <= len payload <= 65535) by (unfold len in *; lia).
  assert (Hlo : is_byte (len payload mod 256))
    by (unfold is_byte; apply Z.mod_pos_bound; lia).
  assert (Hhi : is_byte (len payload / 256)).
  { unfold is_byte. split; [apply Z.div_pos; lia |].
    apply Z.div_lt_upper_bound; lia. }
  assert (Hhead : all_bytes (head ++ payload)).
  { apply Forall_app. split; [| exact Hp].
    repeat (apply Forall_cons); try apply Forall_nil; try assumption.
    unfold is_byte. lia. }
  pose proof (xor_all_byte _ Hhead) as Hck.
  exists (xor_all (head ++ payload)).
  split; [| split; [reflexivity | split; [| split]]].
  - unfold create_packet, bytearray_append. simpl.
    pose proof Ht as Htb. apply is_byteb_spec in Htb. rewrite Htb. simpl.
    rewrite struct_pack_H_div_mod by exact Hn. simpl.
    pose proof Hck as Hckb. apply is_byteb_spec in Hckb.
    change (TestUartProtocol.PACKET_START :: t :: len payload mod 256
              :: len payload / 256 :: payload)
      with (head ++ payload).
    rewrite Hckb. reflexivity.
  - rewrite app_assoc. apply Forall_app. split; [exact Hhead |].
    apply Forall_cons; [exact Hck | apply Forall_nil].
  - unfold len. rewrite !length_app. simpl. lia.
  - rewrite app_assoc. apply xor_all_snoc_self.
Qed.

Lemma create_packet_layout_witness :
  create_packet 2 (PBytes [1; 10; 251])
    = Ok ([0xAA; 2; 3; 0] ++ [1; 10; 251] ++ [91]) /\
  xor_all ([0xAA; 2; 3; 0] ++ [1; 10; 251] ++ [91]) = 0.
Proof.
  destruct (create_packet_layout 2 [1; 10; 251]) as (ck & Hpkt & Hck & _ & _ & Hz).
  - unfold is_byte. lia.
  - solve_bytes.
  - vm_compute. discriminate.
  - vm_compute in Hck. subst ck. split; [exact Hpkt | exact Hz].
Defined.

(** X2: the encoding is unambiguous: two type bytes and payloads that give
    the same packet are the same. *)
Theorem create_packet_injective (t1 t2 : Z) (payload1 payload2 packet : bytes) :
  is_byte t1 -> all_bytes payload1 -> is_byte t2 -> all_bytes payload2 ->
  create_packet t1 (PBytes payload1) = Ok packet ->
  create_packet t2 (PBytes payload2) = Ok packet ->
  t1 = t2 /\ payload1 = payload2.
Proof.
  intros Ht1 Hp1 Ht2 Hp2 H1 H2.
  pose proof (created_packet_frames _ _ _ Ht1 Hp1 H1) as F1.
  pose proof (created_packet_frames _ _ _ Ht2 Hp2 H2) as F2.
  rewrite F1 in F2. injection F2 as -> ->. split; reflexivity.
Qed.

Lemma create_packet_injective_witness :
  2 = 2 /\ [1; 10; 251] = [1; 10; 251].
Proof.
  apply (create_packet_injective 2 2 [1; 10; 251] [1; 10; 251]
           [170; 2; 3; 0; 1; 10; 251; 91]);
    try solve_bytes; try (unfold is_byte; lia); reflexivity.
Defined.

Lemma eqb_lxor (a b : Z) : (a =? b) = (Z.lxor a b =? 0).
Proof.
  destruct (Z.eqb_spec a b) as [-> | Hne].
  - rewrite Z.lxor_nilpotent. reflexivity.
  - symmetry. apply Z.eqb_neq. intros H. apply Z.lxor_eq in H. contradiction.
Qed.

Lemma verify_checksum_nonempty (b : Z) (l : bytes) :
  verify_checksum (b :: l) = Ok (xor_all (b :: l) =? 0).
Proof.
  destruct (exists_last (l := b :: l)) as (covered & recv & ->);
    [discriminate |].
  rewrite verify_checksum_snoc, xor_all_app, (xor_all_cons recv []).
  unfold xor_all at 3. simpl fold_left. rewrite Z.lxor_0_r.
  f_equal. apply eqb_lxor.
Qed.

(** X3: [verify_checksum] accepts exactly the non-empty sequences whose
    bytes, checksum byte included, XOR to 0; on the empty sequence it raises
    IndexError. *)
Theorem verify_checksum_zero_xor (packet_bytes : bytes) :
  verify_checksum packet_bytes =
    match packet_bytes with
    | [] => Raise IndexError
    | _ :: _ => Ok (xor_all packet_bytes =? 0)
    end.
Proof.
  destruct packet_bytes as [| b l]; [reflexivity |].
  apply verify_checksum_nonempty.
Qed.

End WireFormat.

(** ** What the checksum does not see *)

Section BlindSpots.

Lemma created_packet_shape (t : Z) (payload packet : bytes) :
  is_byte t -> all_bytes payload ->
  create_packet t (PBytes payload) = Ok packet ->
  exists lo hi,
    len payload = Z.lor lo (Z.shiftl hi 8) /\
    packet = [UartMonitor.PACKET_START; t; lo; hi] ++ payload
               ++ [xor_all ([UartMonitor.PACKET_START; t; lo; hi] ++ payload)].
Proof.
  intros Ht Hp Hc.
  assert (Hlen : len payload <= 65535).
  { destruct (Z_le_gt_dec (len payload) 65535) as [Hle | Hgt]; [exact Hle |].
    rewrite create_packet_too_long in Hc by (assumption || lia).
    discriminate. }
  destruct (create_packet_wire t payload Ht Hp Hlen)
    as (lo & hi & _ & _ & Hval & Hw).
  exists lo, hi. split; [symmetry; exact Hval |].
  rewrite Hw in Hc. apply Ok_inj in Hc. symmetry. exact Hc.
Qed.

Lemma nth_flip_bit_at_same (i : nat) (k : Z) (l : bytes) :
  (i < List.length l)%nat ->
  nth i (flip_bit_at i k l) 0 = flip_bit k (nth i l 0).
Proof.
  revert i. induction l as [| b l IH]; intros i Hi; simpl in Hi; [lia |].
  destruct i as [| i]; simpl; [reflexivity |]. apply IH. lia.
Qed.

Lemma nth_flip_bit_at_other (i j : nat) (k : Z) (l : bytes) :
  i <> j -> nth i (flip_bit_at j k l) 0 = nth i l 0.
Proof.
  revert i j. induction l as [| b l IH]; intros i j Hij.
  - destruct j; reflexivity.
  - destruct j as [| j], i as [| i]; simpl; try reflexivity; try lia.
    apply IH. lia.
Qed.

Lemma xor_all_flip_twice (i j : nat) (k : Z) (l : bytes) :
  (i < List.length l)%nat -> (j < List.length l)%nat ->
  xor_all (flip_bit_at i k (flip_bit_at j k l)) = xor_all l.
Proof.
  intros Hi Hj.
  rewrite xor_all_flip_bit_at by (rewrite length_flip_bit_at; exact Hi).
  rewrite xor_all_flip_bit_at by exact Hj.
  rewrite Z.lxor_assoc, Z.lxor_nilpotent. apply Z.lxor_0_r.
Qed.

Lemma xor_all_permutation (l l' : bytes) :
  Permutation l l' -> xor_all l = xor_all l'.
Proof.
  induction 1 as [| b l l' _ IH | a b l | l l' l'' _ IH1 _ IH2].
  - reflexivity.
  - rewrite !xor_all_cons, IH. reflexivity.
  - rewrite !xor_all_cons, <- !Z.lxor_assoc, (Z.lxor_comm b a). reflexivity.
  - congruence.
Qed.

(** X4: the same bit inverted in two different payload bytes of a packet
    goes unnoticed: the framing accepts the packet and hands on the altered
    payload. *)
Theorem same_bit_twice_undetected (t : Z) (payload packet : bytes)
        (i j : nat) (k : Z) :
  is_byte t -> all_bytes payload ->
  create_packet t (PBytes payload) = Ok packet ->
  0 <= k < 8 -> (i < j < List.length payload)%nat ->
  let corrupted := flip_bit_at i k (flip_bit_at j k payload) in
  corrupted <> payload /\
  read_frame (flip_bit_at (4 + i) k (flip_bit_at (4 + j) k packet))
    = Ok (Framed (Decoded t corrupted) []).
Proof.
  intros Ht Hp Hc Hk Hij corrupted.
  destruct (created_packet_shape t payload packet Ht Hp Hc)
    as (lo & hi & Hval & ->).
  split.
  - intros Heq.
    assert (Hn : nth i corrupted 0 = nth i payload 0) by (now rewrite Heq).
    unfold corrupted in Hn.
    rewrite nth_flip_bit_at_same in Hn by (rewrite length_flip_bit_at; lia).
    rewrite nth_flip_bit_at_other in Hn by lia.
    revert Hn. apply flip_bit_changes. lia.
  - set (head := [UartMonitor.PACKET_START; t; lo; hi]).
    set (ck := xor_all (head ++ payload)).
    assert (Hflip : flip_bit_at (4 + i) k (flip_bit_at (4 + j) k
                      (head ++ payload ++ [ck]))
                    = head ++ corrupted ++ [ck]).
    { cbn [head app Nat.add flip_bit_at].
      rewrite flip_bit_at_app_l by lia.
      rewrite flip_bit_at_app_l by (rewrite length_flip_bit_at; lia).
      reflexivity. }
    rewrite Hflip.
    pose proof (read_frame_complete [] t lo hi corrupted ck [] (Forall_nil _))
      as Hf.
    unfold head. cbn [app] in Hf |- *. rewrite Hf.
    + replace (xor_all (UartMonitor.PACKET_START :: t :: lo :: hi :: corrupted))
        with ck; [now rewrite Z.eqb_refl |].
      unfold ck, head. change (UartMonitor.PACKET_START :: t :: lo :: hi :: corrupted)
        with ([UartMonitor.PACKET_START; t; lo; hi] ++ corrupted).
      rewrite !xor_all_app. unfold corrupted.
      rewrite xor_all_flip_twice by lia. reflexivity.
    + unfold len, corrupted. rewrite !length_flip_bit_at. exact Hval.
Qed.

Lemma same_bit_twice_undetected_witness :
  read_frame (flip_bit_at (4 + 0) 3 (flip_bit_at (4 + 2) 3
                [170; 2; 3; 0; 1; 10; 251; 91]))
    = Ok (Framed (Decoded 2 (flip_bit_at 0 3 (flip_bit_at 2 3 [1; 10; 251]))) []).
Proof.
  apply (same_bit_twice_undetected 2 [1; 10; 251]
           [170; 2; 3; 0; 1; 10; 251; 91] 0 2 3).
  - unfold is_byte. lia.
  - solve_bytes.
  - reflexivity.
  - lia.
  - simpl. lia.
Defined.

(** X5: the checksum does not see the order of the payload bytes: a packet
    whose payload bytes arrive in any other order is accepted with the
    reordered payload. *)
Theorem reordered_payload_undetected (t : Z) (payload payload' packet : bytes) :
  is_byte t -> all_bytes payload ->
  create_packet t (PBytes payload) = Ok packet ->
  Permutation payload payload' ->
  read_frame (firstn 4 packet ++ payload' ++ [last packet 0])
    = Ok (Framed (Decoded t payload') []).
Proof.
  intros Ht Hp Hc Hperm.
  destruct (created_packet_shape t payload packet Ht Hp Hc)
    as (lo & hi & Hval & ->).
  set (ck := xor_all ([UartMonitor.PACKET_START; t; lo; hi] ++ payload)).
  replace (last ([UartMonitor.PACKET_START; t; lo; hi] ++ payload ++ [ck]) 0)
    with ck
    by (rewrite (app_assoc _ payload [ck]), last_last; reflexivity).
  cbn [firstn app].
  pose proof (read_frame_complete [] t lo hi payload' ck [] (Forall_nil _))
    as Hf.
  cbn [app] in Hf. rewrite Hf.
  - replace (xor_all (UartMonitor.PACKET_START :: t :: lo :: hi :: payload'))
      with ck; [now rewrite Z.eqb_refl |].
    unfold ck.
    change (UartMonitor.PACKET_START :: t :: lo :: hi :: payload')
      with ([UartMonitor.PACKET_START; t; lo; hi] ++ payload').
    rewrite !xor_all_app, (xor_all_permutation _ _ Hperm). reflexivity.
  - unfold len. rewrite <- (Permutation_length Hperm). exact Hval.
Qed.

Lemma reordered_payload_undetected_witness :
  read_frame (firstn 4 [170; 2; 3; 0; 1; 10; 251; 91] ++ [251; 1; 10]
                ++ [last [170; 2; 3; 0; 1; 10; 251; 91] 0])
    = Ok (Framed (Decoded 2 [251; 1; 10]) []).
Proof.
  apply (reordered_payload_undetected 2 [1; 10; 251] [251; 1; 10]
           [170; 2; 3; 0; 1; 10; 251; 91]).
  - unfold is_byte. lia.
  - solve_bytes.
  - reflexivity.
  - apply Permutation_sym, (Permutation_cons_app [1; 10] []). simpl.
    apply Permutation_refl.
Defined.

End BlindSpots.

(** ** Further properties of the monitor loop *)

Section MonitorRuns.

Lemma read_frame_quiet (noise ser : bytes) :
  quiet noise -> read_frame (noise ++ ser) = read_frame ser.
Proof. intros Hq. unfold read_frame. now rewrite seek_start_quiet. Qed.

(** An encoded packet after noise, with more bytes behind it. *)
Lemma created_packet_frames_rest (noise rest : bytes) (t : Z)
      (payload packet : bytes) :
  quiet noise -> is_byte t -> all_bytes payload ->
  create_packet t (PBytes payload) = Ok packet ->
  read_frame (noise ++ packet ++ rest) = Ok (Framed (Decoded t payload) rest).
Proof.
  intros Hq Ht Hp Hc.
  destruct (created_packet_shape t payload packet Ht Hp Hc)
    as (lo & hi & Hval & ->).
  pose proof (read_frame_complete noise t lo hi payload
                (xor_all ([UartMonitor.PACKET_START; t; lo; hi] ++ payload))
                rest Hq Hval) as Hf.
  rewrite Z.eqb_refl in Hf. rewrite <- Hf.
  f_equal. f_equal. rewrite <- !app_assoc. reflexivity.
Qed.

(** X6: bytes before the first start marker change nothing: the run on a
    transcript with such noise in front is the run on the transcript
    itself. *)
Theorem leading_noise_ignored (noise ser : bytes) :
  quiet noise -> main (noise ++ ser) = main ser.
Proof.
  intros Hq. unfold main. simpl main_loop.
  rewrite read_frame_quiet by exact Hq.
  destruct (read_frame ser) as [[| ev ser'] | e] eqn:Hr; try reflexivity.
  destruct (report ev); [| reflexivity].
  apply read_frame_consumes in Hr.
  rewrite (main_loop_fuel (List.length (noise ++ ser)) (List.length ser) ser');
    [reflexivity | rewrite length_app; lia | lia].
Qed.

Lemma leading_noise_ignored_witness :
  main ([0; 255; 17] ++ [170; 2; 3; 0; 1; 10; 251; 91])
    = main [170; 2; 3; 0; 1; 10; 251; 91].
Proof. apply (leading_noise_ignored [0; 255; 17]). solve_bytes. Defined.

(** X7: reports that the dispatch step answers for, each after any noise
    without a start marker, are printed one line each and in the order
    sent; the run then goes on with the bytes behind them as if they came
    first. *)
Theorem reports_decoded_in_order (reports : list delivery) (rest : bytes) :
  Forall delivered reports ->
  main (flat_map (fun d => d_noise d ++ d_packet d) reports ++ rest) =
    (map (fun d => (Decoded (d_type d) (d_payload d), d_line d)) reports
       ++ fst (main rest),
     snd (main rest)).
Proof.
  induction 1 as [| d reports (Hq & Ht & Hp & Hc & Hd) _ IH]; simpl.
  - destruct (main rest). reflexivity.
  - rewrite <- !app_assoc.
    rewrite (main_printed _ _ _ _
               (created_packet_frames_rest _ _ _ _ _ Hq Ht Hp Hc) Hd).
    rewrite IH. reflexivity.
Qed.

Lemma reports_decoded_in_order_witness :
  main (flat_map (fun d => d_noise d ++ d_packet d)
          [ Delivery [7; 9] 2 [1; 10; 251] [170; 2; 3; 0; 1; 10; 251; 91]
              (lit "MOUSE: buttons=LEFT, x= +10, y=  -5");
            Delivery [] 1 [2; 0; 4; 0; 0; 0; 0; 0]
              [170; 1; 8; 0; 2; 0; 4; 0; 0; 0; 0; 0; 165]
              (lit "KEYBOARD: mod=LSHIFT, keys=[0x04]") ]
        ++ [1; 2; 3]) =
    ([ (Decoded 2 [1; 10; 251], lit "MOUSE: buttons=LEFT, x= +10, y=  -5");
       (Decoded 1 [2; 0; 4; 0; 0; 0; 0; 0],
        lit "KEYBOARD: mod=LSHIFT, keys=[0x04]") ],
     Polling).
Proof.
  apply (reports_decoded_in_order
           [ Delivery [7; 9] 2 [1; 10; 251] [170; 2; 3; 0; 1; 10; 251; 91]
               (lit "MOUSE: buttons=LEFT, x= +10, y=  -5");
             Delivery [] 1 [2; 0; 4; 0; 0; 0; 0; 0]
               [170; 1; 8; 0; 2; 0; 4; 0; 0; 0; 0; 0; 165]
               (lit "KEYBOARD: mod=LSHIFT, keys=[0x04]") ]
           [1; 2; 3]).
  repeat (apply Forall_cons); try apply Forall_nil;
    unfold delivered; simpl;
    (split; [solve_bytes |]); (split; [unfold is_byte; lia |]);
    (split; [solve_bytes |]); split; reflexivity.
Defined.

(** X8: a complete frame with a wrong checksum byte costs exactly one
    checksum error; the run continues with the bytes right behind the
    frame. *)
Theorem checksum_error_resync (noise : bytes) (t lo hi : Z) (payload : bytes)
        (ck : Z) (rest : bytes) :
  quiet noise ->
  len payload = Z.lor lo (Z.shiftl hi 8) ->
  ck <> xor_all ([UartMonitor.PACKET_START; t; lo; hi] ++ payload) ->
  main (noise ++ [UartMonitor.PACKET_START; t; lo; hi] ++ payload ++ [ck]
          ++ rest) =
    ((ChecksumError, lit "ERROR: Checksum mismatch") :: fst (main rest),
     snd (main rest)).
Proof.
  intros Hq Hlen Hck.
  pose proof (read_frame_complete noise t lo hi payload ck rest Hq Hlen) as Hf.
  replace (xor_all ([UartMonitor.PACKET_START; t; lo; hi] ++ payload) =? ck)
    with false in Hf by (symmetry; apply Z.eqb_neq; congruence).
  apply (main_printed _ _ _ _ Hf eq_refl).
Qed.

Lemma checksum_error_resync_witness :
  main ([7] ++ [UartMonitor.PACKET_START; 2; 3; 0] ++ [1; 10; 251] ++ [90]
          ++ [170; 2; 3; 0; 1; 10; 251; 91]) =
    ((ChecksumError, lit "ERROR: Checksum mismatch")
       :: fst (main [170; 2; 3; 0; 1; 10; 251; 91]),
     snd (main [170; 2; 3; 0; 1; 10; 251; 91])).
Proof.
  apply (checksum_error_resync [7] 2 3 0 [1; 10; 251] 90).
  - solve_bytes.
  - reflexivity.
  - vm_compute. discriminate.
Defined.

(** X9: on a transcript of bytes the framing raises nothing, so a run ends
    in one of two ways only: the transcript is used up and the loop polls
    for a start byte, or the dispatch step has raised the NameError. *)
Theorem monitor_stops_only_at_dispatch (ser : bytes) :
  all_bytes ser ->
  (exists found, read_frame ser = Ok found) /\
  (snd (main ser) = Polling \/
   snd (main ser) = Crashed (NameError "pkt_STATUS")).
Proof.
  intros Hser. split.
  - apply read_frame_total. exact Hser.
  - apply main_loop_outcome; [exact Hser | lia].
Qed.

Lemma monitor_stops_only_at_dispatch_witness :
  (exists found, read_frame [170; 5; 0; 0; 175; 170; 1] = Ok found) /\
  (snd (main [170; 5; 0; 0; 175; 170; 1]) = Polling \/
   snd (main [170; 5; 0; 0; 175; 170; 1]) = Crashed (NameError "pkt_STATUS")).
Proof.
  apply (monitor_stops_only_at_dispatch [170; 5; 0; 0; 175; 170; 1]).
  solve_bytes.
Defined.

End MonitorRuns.

Section MonitorInvariant.

Lemma seek_start_bytes (ser s1 : bytes) :
  all_bytes ser -> seek_start ser = Some s1 -> all_bytes s1.
Proof.
  intros Hser. revert s1.
  induction Hser as [| b ser Hb Hser IH]; intros s1; simpl; [discriminate |].
  destruct (b =? UartMonitor.PACKET_START).
  - intros [= <-]. exact Hser.
  - apply IH.
Qed.

Lemma all_bytes_firstn (n : nat) (l : bytes) :
  all_bytes l -> all_bytes (firstn n l).
Proof.
  intros Hl. apply Forall_forall. intros b Hb.
  apply (proj1 (Forall_forall _ _) Hl). rewrite <- (firstn_skipn n l).
  apply in_or_app. left. exact Hb.
Qed.

Lemma all_bytes_removelast (l : bytes) :
  all_bytes l -> all_bytes (removelast l).
Proof.
  intros Hl. destruct l as [| b l]; [exact Hl |].
  destruct (exists_last (l := b :: l)) as (body & ck & Heq); [discriminate |].
  rewrite Heq in Hl |- *. rewrite removelast_snoc.
  apply Forall_app in Hl. apply Hl.
Qed.

(** What one framing pass can find on bytes. *)
Lemma read_frame_event (ser ser' : bytes) (ev : event) :
  all_bytes ser -> read_frame ser = Ok (Framed ev ser') ->
  match ev with
  | BodyReadFailure expected got => 1 <= expected <= 65536 /\ 0 <= got < expected
  | Decoded t payload => is_byte t /\ len payload <= 65535 /\ all_bytes payload
  | _ => True
  end.
Proof.
  intros Hser. unfold read_frame.
  destruct (seek_start ser) as [s1 |] eqn:Hs; [| discriminate].
  pose proof (seek_start_bytes _ _ Hser Hs) as Hs1. clear Hs Hser.
  destruct s1 as [| t [| lo [| hi s2]]];
    try (intros [= <- <-]; exact I).
  rewrite ser_read_header.
  cbn [len List.length negb Z.of_nat Z.eqb Pos.eqb Pos.of_succ_nat Pos.succ].
  cbn [slice Nat.sub skipn firstn nth struct_unpack_H bind].
  inversion Hs1 as [| ? ? Ht H1]; subst.
  inversion H1 as [| ? ? Hlo H2]; subst.
  inversion H2 as [| ? ? Hhi Hs2]; subst.
  rewrite lor_shift_add by (unfold is_byte in *; tauto || lia).
  set (pkt_len := lo + 256 * hi).
  assert (Hlen : 0 <= pkt_len <= 65535)
    by (unfold is_byte in Hlo, Hhi; unfold pkt_len; lia).
  unfold ser_read.
  set (data := firstn (Z.to_nat (pkt_len + 1)) s2).
  assert (Hdata : len data <= pkt_len + 1).
  { unfold len, data. rewrite length_firstn. lia. }
  assert (Hbytes : all_bytes data) by (apply all_bytes_firstn; exact Hs2).
  destruct (Z.eqb_spec (len data) (pkt_len + 1)) as [Hfull | Hshort];
    cbn [negb].
  - destruct (last_item data) as [ck | e]; cbn [bind]; [| discriminate].
    destruct (verify_checksum _) as [ok | e]; cbn [bind]; [| discriminate].
    destruct (negb ok); intros [= <- <-]; [exact I |].
    split; [exact Ht |]. split; [| apply all_bytes_removelast; exact Hbytes].
    destruct (exists_last (l := data)) as (body & recv & Hbody).
    { intros Hnil. rewrite Hnil in Hfull. unfold len in Hfull.
      simpl in Hfull. lia. }
    rewrite Hbody in Hfull |- *. rewrite removelast_snoc.
    unfold len in *. rewrite length_app in Hfull. simpl in Hfull. lia.
  - intros [= <- <-]. unfold len in *. lia.
Qed.

(** X10: on a transcript of bytes every line the monitor prints keeps
    these bounds: a body failure expects between 1 and 65536 bytes and got
    fewer; a decoded report has type 0x01 or 0x02 and a payload of at most
    65535 bytes. *)
Theorem monitor_event_invariant (ser : bytes) :
  all_bytes ser -> Forall event_ok (events (main ser)).
Proof.
  unfold main, events.
  assert (Hfuel : (List.length ser < S (List.length ser))%nat) by lia.
  revert Hfuel. generalize (S (List.length ser)) as fuel.
  intros fuel. revert ser.
  induction fuel as [| f IH]; intros ser Hf Hser; [lia |]. simpl.
  destruct (read_frame ser) as [[| ev ser'] | e] eqn:Hr;
    try (apply Forall_nil).
  destruct (report ev) as [line | e] eqn:Hrep; [| apply Forall_nil].
  pose proof (read_frame_consumes _ _ _ Hr) as Hlt.
  pose proof (read_frame_bytes _ _ _ Hser Hr) as Hser'.
  specialize (IH ser' ltac:(lia) Hser').
  destruct (main_loop f ser') as [printed o]. simpl in IH |- *.
  apply Forall_cons; [| exact IH].
  pose proof (read_frame_event _ _ _ Hser Hr) as Hev.
  destruct ev as [| expected got | | t payload]; simpl; try exact I;
    try exact Hev.
  destruct Hev as (_ & Hlen & Hp). split; [| split; assumption].
  simpl in Hrep.
  destruct (Z.eq_dec t UartMonitor.PKT_KEYBOARD_REPORT) as [-> | H1];
    [left; reflexivity |].
  destruct (Z.eq_dec t UartMonitor.PKT_MOUSE_REPORT) as [-> | H2];
    [right; reflexivity |].
  rewrite decode_packet_raises in Hrep by assumption. discriminate.
Qed.

Lemma monitor_event_invariant_witness :
  Forall event_ok (events (main [170; 1; 1; 0; 171; 170; 2; 9; 0; 5])).
Proof.
  apply (monitor_event_invariant [170; 1; 1; 0; 171; 170; 2; 9; 0; 5]).
  solve_bytes.
Defined.

End MonitorInvariant.

(** ** The senders against the monitor *)

Section Senders.

Lemma bytes_of_ints_bytes (ints : list Z) :
  all_bytes ints -> bytes_of_ints ints = Ok ints.
Proof.
  intros H. unfold bytes_of_ints.
  replace (forallb is_byteb ints) with true; [reflexivity |].
  symmetry. apply forallb_forall. intros b Hb. apply is_byteb_spec.
  exact (proj1 (Forall_forall _ _) H b Hb).
Qed.

Lemma keyboard_payload_bytes (modifier : Z) (keys : list Z) :
  is_byte modifier -> all_bytes keys ->
  all_bytes (keyboard_payload modifier keys).
Proof.
  intros Hm Hk. unfold keyboard_payload. simpl.
  repeat (apply Forall_cons); try assumption. unfold is_byte. lia.
Qed.

Lemma land_255_byte (v : Z) : is_byte (Z.land v 255).
Proof.
  change 255 with (Z.ones 8). rewrite Z.land_ones by lia.
  unfold is_byte. apply Z.mod_pos_bound. lia.
Qed.

(** The byte the mouse sender writes for a delta, read back by the
    monitor. *)
Lemma unpack_masked (v : Z) :
  struct_unpack_b (Z.land v 255) = (v + 128) mod 256 - 128.
Proof.
  change 255 with (Z.ones 8). rewrite Z.land_ones by lia.
  change (2 ^ 8) with 256. unfold struct_unpack_b.
  pose proof (Z.div_mod v 256 ltac:(lia)) as E.
  pose proof (Z.mod_pos_bound v 256 ltac:(lia)) as B.
  set (q := v / 256) in *. set (r := v mod 256) in *. clearbody q r.
  destruct (Z.ltb_spec r 128).
  - replace (v + 128) with (r + 128 + q * 256) by lia.
    rewrite Z.mod_add by lia. rewrite Z.mod_small by lia. lia.
  - replace (v + 128) with (r - 128 + (q + 1) * 256) by lia.
    rewrite Z.mod_add by lia. rewrite Z.mod_small by lia. lia.
Qed.

(** X11: a keyboard report of byte values is written as one packet and
    logged in one line; the monitor, reading that packet, hands exactly
    modifier, reserved zero and keys to the keyboard decoder and prints its
    line. *)
Theorem keyboard_report_end_to_end (ser : port) (modifier : Z) (keys : list Z) :
  is_byte modifier -> all_bytes keys -> len keys <= 65533 ->
  exists packet,
    send_keyboard_report ser modifier keys =
      (Ok tt,
       {| sent := sent ser ++ packet;
          shown := shown ser ++
            [lit "Sent keyboard: mod=0x" ++ fmt_02X modifier ++ lit ", keys="
               ++ repr_str_list (map (fun k => lit "0x" ++ fmt_02X k) keys)] |})
    /\
    UartMonitor.main packet =
      ([(Decoded UartMonitor.PKT_KEYBOARD_REPORT (modifier :: 0 :: keys),
         decode_keyboard_report (modifier :: 0 :: keys))], Polling).
Proof.
  intros Hm Hk Hlen.
  pose proof (keyboard_payload_bytes modifier keys Hm Hk) as Hp.
  assert (Ht : is_byte TestUartProtocol.PKT_KEYBOARD_REPORT)
    by (unfold is_byte, TestUartProtocol.PKT_KEYBOARD_REPORT; lia).
  destruct (create_packet_wire TestUartProtocol.PKT_KEYBOARD_REPORT
              (keyboard_payload modifier keys) Ht Hp)
    as (lo & hi & _ & _ & _ & Hw).
  { unfold len, keyboard_payload in *. simpl. lia. }
  eexists. split.
  - unfold send_keyboard_report.
    rewrite bytes_of_ints_bytes by exact Hp. cbn [bind]. rewrite Hw.
    reflexivity.
  - rewrite (main_single_packet _ _ _ Ht Hp Hw). reflexivity.
Qed.

Lemma keyboard_report_end_to_end_witness :
  exists packet,
    send_keyboard_report fresh 2 [4; 0; 0; 0; 0; 0] =
      (Ok tt,
       {| sent := sent fresh ++ packet;
          shown := shown fresh ++
            [lit "Sent keyboard: mod=0x" ++ fmt_02X 2 ++ lit ", keys="
               ++ repr_str_list
                    (map (fun k => lit "0x" ++ fmt_02X k) [4; 0; 0; 0; 0; 0])] |})
    /\
    UartMonitor.main packet =
      ([(Decoded UartMonitor.PKT_KEYBOARD_REPORT (2 :: 0 :: [4; 0; 0; 0; 0; 0]),
         decode_keyboard_report (2 :: 0 :: [4; 0; 0; 0; 0; 0]))], Polling).
Proof.
  apply (keyboard_report_end_to_end fresh 2 [4; 0; 0; 0; 0; 0]).
  - unfold is_byte. lia.
  - solve_bytes.
  - vm_compute. discriminate.
Defined.

(** X12: the keyboard sender does not check the number of keys: with any
    other number than six the packet is sent all the same, and the monitor
    answers it with the invalid-length line for two bytes more than there
    are keys. *)
Theorem keyboard_report_wrong_key_count (ser : port) (modifier : Z)
        (keys : list Z) :
  is_byte modifier -> all_bytes keys -> len keys <= 65533 -> len keys <> 6 ->
  exists packet line,
    send_keyboard_report ser modifier keys =
      (Ok tt, {| sent := sent ser ++ packet; shown := shown ser ++ [line] |}) /\
    UartMonitor.main packet =
      ([(Decoded UartMonitor.PKT_KEYBOARD_REPORT (modifier :: 0 :: keys),
         lit "Invalid keyboard report length: " ++ dec (len keys + 2))],
       Polling).
Proof.
  intros Hm Hk Hlen Hsix.
  pose proof (keyboard_payload_bytes modifier keys Hm Hk) as Hp.
  assert (Ht : is_byte TestUartProtocol.PKT_KEYBOARD_REPORT)
    by (unfold is_byte, TestUartProtocol.PKT_KEYBOARD_REPORT; lia).
  destruct (create_packet_wire TestUartProtocol.PKT_KEYBOARD_REPORT
              (keyboard_payload modifier keys) Ht Hp)
    as (lo & hi & _ & _ & _ & Hw).
  { unfold len, keyboard_payload in *. simpl. lia. }
  eexists. eexists. split.
  - unfold send_keyboard_report.
    rewrite bytes_of_ints_bytes by exact Hp. cbn [bind]. rewrite Hw.
    reflexivity.
  - rewrite (main_single_packet _ _ _ Ht Hp Hw).
    change (decode_packet TestUartProtocol.PKT_KEYBOARD_REPORT
              (keyboard_payload modifier keys))
      with (Ok (decode_keyboard_report (modifier :: 0 :: keys))).
    unfold decode_keyboard_report.
    assert (Hl : len (modifier :: 0 :: keys) = len keys + 2)
      by (unfold len; simpl; lia).
    rewrite Hl.
    replace (len keys + 2 =? 8) with false
      by (symmetry; apply Z.eqb_neq; lia).
    reflexivity.
Qed.

Lemma keyboard_report_wrong_key_count_witness :
  exists packet line,
    send_keyboard_report fresh 0 [4; 5] =
      (Ok tt, {| sent := sent fresh ++ packet;
                 shown := shown fresh ++ [line] |}) /\
    UartMonitor.main packet =
      ([(Decoded UartMonitor.PKT_KEYBOARD_REPORT (0 :: 0 :: [4; 5]),
         lit "Invalid keyboard report length: " ++ dec (len [4; 5] + 2))],
       Polling).
Proof.
  apply (keyboard_report_wrong_key_count fresh 0 [4; 5]).
  - unfold is_byte. lia.
  - solve_bytes.
  - vm_compute. discriminate.
  - vm_compute. discriminate.
Defined.

(** X13: a report the senders cannot encode leaves the port untouched: a
    modifier, key or button value outside 0..255 raises ValueError, more
    than 65533 keys raise the length error, and in both cases nothing has
    been written or printed. *)
Theorem senders_reject_without_trace (ser : port) (modifier buttons : Z)
        (keys : list Z) (dx dy : Z) :
  (forallb is_byteb (modifier :: keys) = false ->
     send_keyboard_report ser modifier keys = (Raise ValueError, ser)) /\
  (forallb is_byteb (modifier :: keys) = true -> 65533 < len keys ->
     send_keyboard_report ser modifier keys = (Raise PayloadTooLarge, ser)) /\
  (is_byteb buttons = false ->
     send_mouse_report ser buttons dx dy = (Raise ValueError, ser)).
Proof.
  repeat split.
  - intros Hbad. unfold send_keyboard_report, bytes_of_ints, keyboard_payload.
    simpl in Hbad |- *. rewrite Hbad. reflexivity.
  - intros Hok Hlen.
    assert (Hall : all_bytes (modifier :: keys)).
    { apply Forall_forall. intros b Hb. apply is_byteb_spec.
      exact (proj1 (forallb_forall _ _) Hok b Hb). }
    inversion Hall as [| ? ? Hm Hk]; subst.
    pose proof (keyboard_payload_bytes modifier keys Hm Hk) as Hp.
    unfold send_keyboard_report.
    rewrite bytes_of_ints_bytes by exact Hp. cbn [bind].
    rewrite create_packet_too_long; [reflexivity | |].
    + unfold is_byte, TestUartProtocol.PKT_KEYBOARD_REPORT. lia.
    + unfold len, keyboard_payload in *. simpl. lia.
  - intros Hbad. unfold send_mouse_report, bytes_of_ints, mouse_payload.
    simpl. rewrite Hbad. reflexivity.
Qed.

Lemma senders_reject_without_trace_witness :
  send_keyboard_report fresh 0 [4; 300; 0; 0; 0; 0] = (Raise ValueError, fresh) /\
  send_mouse_report fresh 256 1 1 = (Raise ValueError, fresh).
Proof.
  split.
  - apply (proj1 (senders_reject_without_trace fresh 0 0 [4; 300; 0; 0; 0; 0] 0 0)).
    reflexivity.
  - apply (proj2 (proj2 (senders_reject_without_trace fresh 0 256 [] 1 1))).
    reflexivity.
Defined.

End Senders.

Section MouseAndStatus.

(** X14: the mouse sender accepts any integer deltas: it writes each as its
    low eight bits, and the monitor reads the byte back and prints, with its
    sign, the delta reduced modulo 256 into -128..127. *)
Theorem mouse_report_end_to_end (ser : port) (buttons dx dy : Z) :
  is_byte buttons ->
  let payload := [buttons; Z.land dx 255; Z.land dy 255] in
  exists packet,
    send_mouse_report ser buttons dx dy =
      (Ok tt,
       {| sent := sent ser ++ packet;
          shown := shown ser ++
            [lit "Sent mouse: buttons=0x" ++ fmt_02X buttons ++ lit ", x="
               ++ fmt_plus4d dx ++ lit ", y=" ++ fmt_plus4d dy] |}) /\
    UartMonitor.main packet =
      ([(Decoded UartMonitor.PKT_MOUSE_REPORT payload,
         decode_mouse_report payload)], Polling) /\
    x (mouse_report_locals payload) = (dx + 128) mod 256 - 128 /\
    y (mouse_report_locals payload) = (dy + 128) mod 256 - 128 /\
    decode_mouse_report payload =
      lit "MOUSE: buttons=" ++ buttons_text buttons
        ++ lit ", x=" ++ fmt_plus4d ((dx + 128) mod 256 - 128)
        ++ lit ", y=" ++ fmt_plus4d ((dy + 128) mod 256 - 128).
Proof.
  intros Hb payload.
  assert (Hp : all_bytes (mouse_payload buttons dx dy)).
  { unfold mouse_payload.
    repeat (apply Forall_cons); try apply Forall_nil;
      try apply land_255_byte. exact Hb. }
  assert (Ht : is_byte TestUartProtocol.PKT_MOUSE_REPORT)
    by (unfold is_byte, TestUartProtocol.PKT_MOUSE_REPORT; lia).
  destruct (create_packet_wire TestUartProtocol.PKT_MOUSE_REPORT
              (mouse_payload buttons dx dy) Ht Hp)
    as (lo & hi & _ & _ & _ & Hw).
  { vm_compute. discriminate. }
  eexists. split; [| split; [| split; [| split]]].
  - unfold send_mouse_report.
    rewrite bytes_of_ints_bytes by exact Hp. cbn [bind]. rewrite Hw.
    reflexivity.
  - rewrite (main_single_packet _ _ _ Ht Hp Hw). reflexivity.
  - apply unpack_masked.
  - apply unpack_masked.
  - rewrite <- !unpack_masked. reflexivity.
Qed.

Lemma mouse_report_end_to_end_witness :
  exists packet,
    send_mouse_report fresh 1 200 (-5) =
      (Ok tt,
       {| sent := sent fresh ++ packet;
          shown := shown fresh ++
            [lit "Sent mouse: buttons=0x01, x=+200, y=  -5"] |}) /\
    UartMonitor.main packet =
      ([(Decoded UartMonitor.PKT_MOUSE_REPORT [1; 200; 251],
         lit "MOUSE: buttons=LEFT, x= -56, y=  -5")], Polling).
Proof.
  destruct (mouse_report_end_to_end fresh 1 200 (-5))
    as (packet & Hsent & Hmain & _ & _ & Hline).
  - unfold is_byte. lia.
  - exists packet. split; [exact Hsent |].
    rewrite Hmain, Hline. reflexivity.
Defined.

(** X15: for deltas from -128 to 127 the monitor's line ends in the same
    x and y text as the line the mouse sender logs. *)
Theorem mouse_lines_agree (ser : port) (buttons dx dy : Z) :
  is_byte buttons -> -128 <= dx < 128 -> -128 <= dy < 128 ->
  let deltas := lit ", x=" ++ fmt_plus4d dx ++ lit ", y=" ++ fmt_plus4d dy in
  exists packet names,
    send_mouse_report ser buttons dx dy =
      (Ok tt,
       {| sent := sent ser ++ packet;
          shown := shown ser ++
            [lit "Sent mouse: buttons=0x" ++ fmt_02X buttons ++ deltas] |}) /\
    UartMonitor.main packet =
      ([(Decoded UartMonitor.PKT_MOUSE_REPORT (mouse_payload buttons dx dy),
         lit "MOUSE: buttons=" ++ names ++ deltas)], Polling).
Proof.
  intros Hb Hx Hy deltas.
  assert (Hp : all_bytes (mouse_payload buttons dx dy)).
  { unfold mouse_payload.
    repeat (apply Forall_cons); try apply Forall_nil;
      try apply land_255_byte. exact Hb. }
  assert (Ht : is_byte TestUartProtocol.PKT_MOUSE_REPORT)
    by (unfold is_byte, TestUartProtocol.PKT_MOUSE_REPORT; lia).
  destruct (create_packet_wire TestUartProtocol.PKT_MOUSE_REPORT
              (mouse_payload buttons dx dy) Ht Hp)
    as (lo & hi & _ & _ & _ & Hw).
  { vm_compute. discriminate. }
  eexists. eexists. split.
  - unfold send_mouse_report.
    rewrite bytes_of_ints_bytes by exact Hp. cbn [bind]. rewrite Hw.
    unfold deltas, print, ser_write. cbn [sent shown].
    repeat f_equal.
  - rewrite (main_single_packet _ _ _ Ht Hp Hw).
    change (decode_packet TestUartProtocol.PKT_MOUSE_REPORT
              (mouse_payload buttons dx dy))
      with (Ok (decode_mouse_report (mouse_payload buttons dx dy))).
    unfold decode_mouse_report.
    change (len (mouse_payload buttons dx dy) <? 3) with false. cbv iota.
    destruct (mouse_payload_roundtrip buttons dx dy Hx Hy) as [-> ->].
    unfold deltas. reflexivity.
Qed.

Lemma mouse_lines_agree_witness :
  exists packet names,
    send_mouse_report fresh 1 10 (-5) =
      (Ok tt,
       {| sent := sent fresh ++ packet;
          shown := shown fresh ++
            [lit "Sent mouse: buttons=0x" ++ fmt_02X 1
               ++ (lit ", x=" ++ fmt_plus4d 10 ++ lit ", y="
                     ++ fmt_plus4d (-5))] |}) /\
    UartMonitor.main packet =
      ([(Decoded UartMonitor.PKT_MOUSE_REPORT (mouse_payload 1 10 (-5)),
         lit "MOUSE: buttons=" ++ names
           ++ (lit ", x=" ++ fmt_plus4d 10 ++ lit ", y=" ++ fmt_plus4d (-5)))],
       Polling).
Proof.
  apply (mouse_lines_agree fresh 1 10 (-5)); unfold is_byte; lia.
Defined.

(** X16: a status message that is sent reaches the monitor's framing as
    its UTF-8 bytes, which decode back to the message; the monitor then
    ends at the dispatch of the packet without printing it. *)
Theorem status_message_end_to_end (ser ser' : port) (message : str) :
  is_str message ->
  send_status ser message = (Ok tt, ser') ->
  exists packet payload,
    ser' = {| sent := sent ser ++ packet;
              shown := shown ser ++ [lit "Sent status: " ++ message] |} /\
    read_frame packet
      = Ok (Framed (Decoded UartMonitor.PKT_STATUS payload) []) /\
    bytes_decode_utf8 payload = Some message /\
    UartMonitor.main packet = ([], Crashed (NameError "pkt_STATUS")).
Proof.
  intros Hs. unfold send_status.
  destruct (create_packet TestUartProtocol.PKT_STATUS (PStr message))
    as [packet | e] eqn:Hc; [| discriminate].
  intros Hsent. injection Hsent as <-.
  assert (Ht : is_byte TestUartProtocol.PKT_STATUS)
    by (unfold is_byte, TestUartProtocol.PKT_STATUS; lia).
  destruct (str_packet_frames _ _ _ Ht Hs Hc) as (payload & _ & Hf & Hd).
  exists packet, payload. repeat split; try assumption.
  apply (main_crashed _ _ _ _ Hf). simpl.
  apply decode_packet_raises; discriminate.
Qed.

Lemma status_message_end_to_end_witness :
  exists packet payload,
    snd (send_status fresh [104; 233; 8364]) =
      {| sent := sent fresh ++ packet;
         shown := shown fresh ++ [lit "Sent status: " ++ [104; 233; 8364]] |} /\
    read_frame packet
      = Ok (Framed (Decoded UartMonitor.PKT_STATUS payload) []) /\
    bytes_decode_utf8 payload = Some [104; 233; 8364] /\
    UartMonitor.main packet = ([], Crashed (NameError "pkt_STATUS")).
Proof.
  apply (status_message_end_to_end fresh
           (snd (send_status fresh [104; 233; 8364])) [104; 233; 8364]).
  - repeat (apply Forall_cons); try apply Forall_nil; lia.
  - reflexivity.
Defined.

(** The keyboard line depends on the modifier byte and on the non-zero key
    codes in their order only, whatever the values are. *)
Lemma keyboard_line_ignores_reserved_and_empty_slots
        (modifier reserved reserved' : Z) (keys keys' : list Z) :
  List.length keys = 6%nat -> List.length keys' = 6%nat ->
  filter (fun k => negb (k =? 0)) keys = filter (fun k => negb (k =? 0)) keys' ->
  decode_keyboard_report (modifier :: reserved :: keys) =
    decode_keyboard_report (modifier :: reserved' :: keys').
Proof.
  intros H6 H6' Hsame. unfold decode_keyboard_report, len.
  cbn [List.length]. rewrite H6, H6'.
  cbn [Z.of_nat Pos.of_succ_nat Pos.succ Z.eqb Pos.eqb negb nth].
  unfold slice. cbn [skipn Nat.sub].
  rewrite !firstn_all2 by lia. rewrite Hsame. reflexivity.
Qed.

Lemma keyboard_line_ignores_reserved_and_empty_slots_witness :
  decode_keyboard_report (2 :: 0 :: [4; 0; 5; 0; 0; 0]) =
    decode_keyboard_report (2 :: 77 :: [0; 0; 4; 0; 0; 5]).
Proof.
  apply (keyboard_line_ignores_reserved_and_empty_slots 2 0 77
           [4; 0; 5; 0; 0; 0] [0; 0; 4; 0; 0; 5]); reflexivity.
Defined.

(** The test sequence as shipped, against the monitor as shipped: 69
    packets in 919 bytes and 75 lines on the console; the monitor ends at
    the first packet, a status message, and a monitor that attaches right
    after it prints the 67 keyboard and mouse reports before it ends at the
    closing status message. *)
Example shipped_test_sequence :
  fst (TestUartProtocol.main fresh) = Ok tt /\
  List.length (sent (snd (TestUartProtocol.main fresh))) = 919%nat /\
  List.length (shown (snd (TestUartProtocol.main fresh))) = 75%nat /\
  UartMonitor.main (sent (snd (TestUartProtocol.main fresh)))
    = ([], Crashed (NameError "pkt_STATUS")) /\
  List.length (fst (UartMonitor.main
                      (skipn 31 (sent (snd (TestUartProtocol.main fresh))))))
    = 67%nat /\
  snd (UartMonitor.main (skipn 31 (sent (snd (TestUartProtocol.main fresh)))))
    = Crashed (NameError "pkt_STATUS").
Proof. repeat split; vm_compute; reflexivity. Qed.

End MouseAndStatus.

(** ** What the printed lines tell *)

Section Lines.

Lemma byte_values_all (P : Z -> bool) :
  forallb P byte_values = true -> forall b, is_byte b -> P b = true.
Proof.
  intros H b Hb. apply (proj1 (forallb_forall _ _) H).
  unfold byte_values. replace b with (Z.of_nat (Z.to_nat b))
    by (unfold is_byte in Hb; lia).
  apply in_map, in_seq. unfold is_byte in Hb. lia.
Qed.

Lemma byte_values_all2 (P : Z -> Z -> bool) :
  forallb (fun a => forallb (P a) byte_values) byte_values = true ->
  forall a b, is_byte a -> is_byte b -> P a b = true.
Proof.
  intros H a b Ha Hb.
  apply (byte_values_all (P a)); [| exact Hb].
  apply (byte_values_all (fun a => forallb (P a) byte_values) H a Ha).
Qed.

Lemma same_text_eq (a b : str) : same_text a b = true <-> a = b.
Proof.
  unfold same_text. destruct (list_eq_dec Z.eq_dec a b); split;
    congruence.
Qed.

(** Two texts cut at the first comma. *)
Lemma split_at_comma (a a' r r' : str) :
  ~ In 44 a -> ~ In 44 a' -> a ++ 44 :: r = a' ++ 44 :: r' ->
  a = a' /\ r = r'.
Proof.
  revert a'. induction a as [| c a IH]; intros [| c' a'] Ha Ha' H; simpl in *.
  - injection H as <-. split; reflexivity.
  - injection H as <- _. exfalso. apply Ha'. left. reflexivity.
  - injection H as -> _. exfalso. apply Ha. left. reflexivity.
  - injection H as <- H.
    assert (Hr : a = a' /\ r = r') by (apply IH; tauto).
    destruct Hr as [-> ->]. split; reflexivity.
Qed.

Lemma In_same_text (c : Z) (a : str) :
  existsb (Z.eqb c) a = false -> ~ In c a.
Proof.
  intros H Hin.
  assert (Ht : existsb (Z.eqb c) a = true)
    by (apply existsb_exists; exists c; split; [exact Hin | apply Z.eqb_refl]).
  congruence.
Qed.

Lemma modifier_text_no_comma (m : Z) :
  is_byte m -> ~ In 44 (modifier_text m).
Proof.
  intros Hm. apply In_same_text. apply negb_true_iff.
  apply (byte_values_all (fun m => negb (existsb (Z.eqb 44) (modifier_text m))));
    [vm_compute; reflexivity | exact Hm].
Qed.

Lemma modifier_text_injective (m m' : Z) :
  is_byte m -> is_byte m' -> modifier_text m = modifier_text m' -> m = m'.
Proof.
  intros Hm Hm' Heq.
  pose proof (byte_values_all2
                (fun a b => implb (same_text (modifier_text a) (modifier_text b))
                                  (a =? b))
                ltac:(vm_compute; reflexivity) m m' Hm Hm') as H.
  cbv beta in H. rewrite (proj2 (same_text_eq _ _) Heq) in H.
  simpl in H. apply Z.eqb_eq. exact H.
Qed.

Lemma key_code_text_injective (k k' : Z) :
  is_byte k -> is_byte k' -> key_code_text k = key_code_text k' -> k = k'.
Proof.
  intros Hk Hk' Heq.
  pose proof (byte_values_all2
                (fun a b => implb (same_text (key_code_text a) (key_code_text b))
                                  (a =? b))
                ltac:(vm_compute; reflexivity) k k' Hk Hk') as H.
  cbv beta in H. rewrite (proj2 (same_text_eq _ _) Heq) in H.
  simpl in H. apply Z.eqb_eq. exact H.
Qed.

(** A key code is four characters, none of them a space, the first a
    zero. *)
Lemma key_code_text_shape (k : Z) :
  is_byte k ->
  exists c1 c2 c3, key_code_text k = [48; c1; c2; c3] /\
                   c1 <> 32 /\ c2 <> 32 /\ c3 <> 32.
Proof.
  intros Hk.
  pose proof (byte_values_all
                (fun k => match key_code_text k with
                          | [48; c1; c2; c3] =>
                              negb (c1 =? 32) && negb (c2 =? 32)
                                && negb (c3 =? 32)
                          | _ => false
                          end)
                ltac:(vm_compute; reflexivity) k Hk) as H.
  cbv beta in H.
  destruct (key_code_text k) as [| c0 [| c1 [| c2 [| c3 [| c4 rest]]]]];
    try discriminate;
    try (destruct c0 as [| p |]; try discriminate;
         repeat (destruct p as [p | p |]; try discriminate)).
  exists c1, c2, c3. split; [reflexivity |].
  apply andb_true_iff in H. destruct H as [H H3].
  apply andb_true_iff in H. destruct H as [H1 H2].
  apply negb_true_iff in H1, H2, H3.
  apply Z.eqb_neq in H1, H2, H3. auto.
Qed.

Lemma join_two (sep p q : str) (rest : list str) :
  join sep (p :: q :: rest) = p ++ sep ++ join sep (q :: rest).
Proof. reflexivity. Qed.

Lemma join_codes_injective (ks ks' : list Z) :
  all_bytes ks -> all_bytes ks' ->
  join (lit " ") (map key_code_text ks) = join (lit " ") (map key_code_text ks') ->
  ks = ks'.
Proof.
  intros Hks. revert ks'.
  induction Hks as [| k ks Hk Hks IH]; intros ks' Hks' Heq.
  - destruct Hks' as [| k' ks' Hk' Hks']; [reflexivity |].
    destruct (key_code_text_shape k' Hk') as (c1 & c2 & c3 & E & _).
    destruct ks'; cbn [map] in Heq; [| rewrite join_two in Heq];
      cbn [join] in Heq; rewrite E in Heq; discriminate.
  - destruct Hks' as [| k' ks' Hk' Hks'].
    + destruct (key_code_text_shape k Hk) as (c1 & c2 & c3 & E & _).
      destruct ks; cbn [map] in Heq; [| rewrite join_two in Heq];
        cbn [join] in Heq; rewrite E in Heq; discriminate.
    + destruct (key_code_text_shape k Hk) as (c1 & c2 & c3 & E & N1 & N2 & N3).
      destruct (key_code_text_shape k' Hk') as (d1 & d2 & d3 & E' & _).
      destruct ks as [| k2 ks], ks' as [| k2' ks'].
      * cbn [map join] in Heq. f_equal.
        apply key_code_text_injective; assumption.
      * cbn [map] in Heq. rewrite join_two in Heq. cbn [join] in Heq.
        rewrite E, E' in Heq. discriminate.
      * cbn [map] in Heq. rewrite join_two in Heq. cbn [join] in Heq.
        rewrite E, E' in Heq. discriminate.
      * cbn [map] in Heq. rewrite !join_two in Heq.
        assert (Hk2 : key_code_text k = key_code_text k').
        { rewrite E, E' in Heq |- *. cbn [app] in Heq.
          injection Heq as -> -> -> _. reflexivity. }
        rewrite Hk2 in Heq. apply app_inv_head in Heq. apply app_inv_head in Heq.
        f_equal; [apply key_code_text_injective; assumption |].
        apply IH; assumption.
Qed.

Lemma keys_text_injective (keys keys' : list Z) :
  all_bytes keys -> all_bytes keys' ->
  keys_text keys = keys_text keys' ->
  filter (fun k => negb (k =? 0)) keys = filter (fun k => negb (k =? 0)) keys'.
Proof.
  intros Hk Hk'. unfold keys_text.
  assert (Hf : forall l : list Z, all_bytes l ->
             all_bytes (filter (fun k => negb (k =? 0)) l)).
  { intros l Hl. apply Forall_forall. intros b Hb.
    apply filter_In in Hb. exact (proj1 (Forall_forall _ _) Hl b (proj1 Hb)). }
  pose proof (Hf keys Hk) as H1. pose proof (Hf keys' Hk') as H2.
  set (f := filter _ keys) in *. set (f' := filter _ keys') in *.
  clearbody f f'. clear Hf.
  assert (Hhead : forall l : list Z, all_bytes l -> l <> [] ->
             exists rest, join (lit " ") (map key_code_text l) = 48 :: rest).
  { intros l Hl Hne. destruct Hl as [| k l Hb Hl]; [congruence |].
    destruct (key_code_text_shape k Hb) as (c1 & c2 & c3 & E & _).
    destruct l; cbn [map]; [| rewrite join_two]; cbn [join]; rewrite E;
      eexists; reflexivity. }
  destruct f as [| k f], f' as [| k' f'].
  - reflexivity.
  - destruct (Hhead (k' :: f') H2 ltac:(discriminate)) as [rest ->].
    simpl. discriminate.
  - destruct (Hhead (k :: f) H1 ltac:(discriminate)) as [rest ->].
    simpl. discriminate.
  - destruct (Hhead (k :: f) H1 ltac:(discriminate)) as [rest E].
    destruct (Hhead (k' :: f') H2 ltac:(discriminate)) as [rest' E'].
    intros Heq. apply join_codes_injective; try assumption.
    rewrite E, E' in Heq |- *. exact Heq.
Qed.

Lemma keyboard_line_parts (modifier reserved : Z) (keys : list Z) :
  List.length keys = 6%nat ->
  decode_keyboard_report (modifier :: reserved :: keys) =
    lit "KEYBOARD: mod=" ++ modifier_text modifier ++ lit ", keys=["
      ++ keys_text keys ++ lit "]".
Proof.
  intros H6. unfold decode_keyboard_report, len.
  cbn [List.length]. rewrite H6.
  cbn [Z.of_nat Pos.of_succ_nat Pos.succ Z.eqb Pos.eqb negb nth].
  unfold slice. cbn [skipn Nat.sub]. rewrite firstn_all2 by lia.
  reflexivity.
Qed.

(** X17: two keyboard reports of byte values print the same line exactly
    when they have the same modifier byte and the same non-zero key codes
    in the same order: the reserved byte and the place of the empty slots
    never show, everything else does. *)
Theorem keyboard_line_lossless (modifier modifier' reserved reserved' : Z)
        (keys keys' : list Z) :
  is_byte modifier -> is_byte modifier' ->
  all_bytes keys -> all_bytes keys' ->
  List.length keys = 6%nat -> List.length keys' = 6%nat ->
  (decode_keyboard_report (modifier :: reserved :: keys) =
     decode_keyboard_report (modifier' :: reserved' :: keys') <->
   modifier = modifier' /\
   filter (fun k => negb (k =? 0)) keys
     = filter (fun k => negb (k =? 0)) keys').
Proof.
  intros Hm Hm' Hk Hk' H6 H6'.
  rewrite !keyboard_line_parts by assumption. split.
  - intros Heq. apply app_inv_head in Heq.
    change (lit ", keys=[") with (44 :: lit " keys=[") in Heq.
    apply split_at_comma in Heq; try (apply modifier_text_no_comma; assumption).
    destruct Heq as [HM HK].
    split; [apply modifier_text_injective; assumption |].
    apply app_inv_head in HK. apply app_inv_tail in HK.
    apply keys_text_injective; assumption.
  - intros [-> Hf]. unfold keys_text. rewrite Hf. reflexivity.
Qed.

Lemma keyboard_line_lossless_witness :
  decode_keyboard_report (2 :: 0 :: [4; 0; 5; 0; 0; 0]) =
    decode_keyboard_report (2 :: 77 :: [0; 0; 4; 0; 0; 5]).
Proof.
  apply (keyboard_line_lossless 2 2 0 77 [4; 0; 5; 0; 0; 0] [0; 0; 4; 0; 0; 5]);
    try solve_bytes; try (unfold is_byte; lia); try reflexivity.
  split; reflexivity.
Defined.

Lemma nth_byte (i : nat) (l : bytes) : all_bytes l -> is_byte (nth i l 0).
Proof.
  intros Hl. destruct (Nat.lt_ge_cases i (List.length l)) as [Hi | Hi].
  - apply (proj1 (Forall_forall _ _) Hl). apply nth_In. exact Hi.
  - rewrite nth_overflow by exact Hi. unfold is_byte. lia.
Qed.

Lemma buttons_text_no_comma (b : Z) : is_byte b -> ~ In 44 (buttons_text b).
Proof.
  intros Hb. apply In_same_text. apply negb_true_iff.
  apply (byte_values_all (fun b => negb (existsb (Z.eqb 44) (buttons_text b))));
    [vm_compute; reflexivity | exact Hb].
Qed.

Lemma buttons_text_low_bits (b b' : Z) :
  is_byte b -> is_byte b' ->
  (buttons_text b = buttons_text b' <-> Z.land b 7 = Z.land b' 7).
Proof.
  intros Hb Hb'.
  pose proof (byte_values_all2
                (fun a b => Bool.eqb (same_text (buttons_text a) (buttons_text b))
                                     (Z.land a 7 =? Z.land b 7))
                ltac:(vm_compute; reflexivity) b b' Hb Hb') as H.
  cbv beta in H. apply eqb_prop in H.
  rewrite <- same_text_eq, H. apply Z.eqb_eq.
Qed.

Lemma delta_text_no_comma (d : Z) :
  is_byte d -> ~ In 44 (fmt_plus4d (struct_unpack_b d)).
Proof.
  intros Hd. apply In_same_text. apply negb_true_iff.
  apply (byte_values_all
           (fun d => negb (existsb (Z.eqb 44) (fmt_plus4d (struct_unpack_b d)))));
    [vm_compute; reflexivity | exact Hd].
Qed.

Lemma delta_text_injective (d d' : Z) :
  is_byte d -> is_byte d' ->
  fmt_plus4d (struct_unpack_b d) = fmt_plus4d (struct_unpack_b d') -> d = d'.
Proof.
  intros Hd Hd' Heq.
  pose proof (byte_values_all2
                (fun a b => implb (same_text (fmt_plus4d (struct_unpack_b a))
                                             (fmt_plus4d (struct_unpack_b b)))
                                  (a =? b))
                ltac:(vm_compute; reflexivity) d d' Hd Hd') as H.
  cbv beta in H. rewrite (proj2 (same_text_eq _ _) Heq) in H.
  simpl in H. apply Z.eqb_eq. exact H.
Qed.

Lemma mouse_line_parts (payload : bytes) :
  3 <= len payload ->
  decode_mouse_report payload =
    lit "MOUSE: buttons=" ++ buttons_text (nth 0 payload 0) ++ lit ", x="
      ++ fmt_plus4d (struct_unpack_b (nth 1 payload 0)) ++ lit ", y="
      ++ fmt_plus4d (struct_unpack_b (nth 2 payload 0)).
Proof.
  intros Hlen. unfold decode_mouse_report.
  replace (len payload <? 3) with false by (symmetry; apply Z.ltb_ge; exact Hlen).
  reflexivity.
Qed.

(** X18: two mouse reports of at least three bytes print the same line
    exactly when they agree in the three low bits of the button byte and in
    the two delta bytes: the upper five button bits never show, everything
    else does. *)
Theorem mouse_line_lossless (payload payload' : bytes) :
  all_bytes payload -> all_bytes payload' ->
  3 <= len payload -> 3 <= len payload' ->
  (decode_mouse_report payload = decode_mouse_report payload' <->
   Z.land (nth 0 payload 0) 7 = Z.land (nth 0 payload' 0) 7 /\
   nth 1 payload 0 = nth 1 payload' 0 /\
   nth 2 payload 0 = nth 2 payload' 0).
Proof.
  intros Hp Hp' Hlen Hlen'.
  rewrite !mouse_line_parts by assumption.
  pose proof (nth_byte 0 _ Hp) as B0. pose proof (nth_byte 0 _ Hp') as B0'.
  pose proof (nth_byte 1 _ Hp) as B1. pose proof (nth_byte 1 _ Hp') as B1'.
  pose proof (nth_byte 2 _ Hp) as B2. pose proof (nth_byte 2 _ Hp') as B2'.
  split.
  - intros Heq. apply app_inv_head in Heq.
    change (lit ", x=") with (44 :: lit " x=") in Heq.
    apply split_at_comma in Heq; try (apply buttons_text_no_comma; assumption).
    destruct Heq as [HB Hrest].
    apply app_inv_head in Hrest.
    change (lit ", y=") with (44 :: lit " y=") in Hrest.
    apply split_at_comma in Hrest;
      try (apply delta_text_no_comma; assumption).
    destruct Hrest as [HX HY]. apply app_inv_head in HY.
    split; [apply buttons_text_low_bits; assumption |].
    split; apply delta_text_injective; assumption.
  - intros (HB & HX & HY).
    apply (buttons_text_low_bits _ _ B0 B0') in HB.
    rewrite HB, HX, HY. reflexivity.
Qed.

Lemma mouse_line_lossless_witness :
  decode_mouse_report [1; 10; 251] = decode_mouse_report [0xF9; 10; 251; 7].
Proof.
  apply (mouse_line_lossless [1; 10; 251] [0xF9; 10; 251; 7]);
    try solve_bytes; try (vm_compute; discriminate).
  repeat split; reflexivity.
Defined.

End Lines.
